(** * Echo Forge-AI Integrity: the verification engine and its renderers

    A shallow embedding of [verification/core_verifier.py]
    ([EchoForgeVerifier]) and of the dashboard consumer in
    [dialects/html/processor.py] ([HTMLDialectProcessor]), with the
    properties of the design document stated against it.

    Conventions.
    - Python [str] and [bytes] are both [string]: text is carried as its
      UTF-8 bytes, a lone surrogate as the three bytes it would have, so
      [data.encode('utf-8')] is the identity on the text it accepts. Slices
      and lengths count bytes, which are the characters of ASCII text.
    - JSON values and Python dictionaries with string keys are [json] and
      [dict]; a [dict] is an association list in insertion order, because
      the CSV header and [json.dumps] without [sort_keys] depend on it.
    - A function that can raise returns [result A = exn + A]; [inl e] is the
      raised exception.
    - Library functions the code calls but does not define (the digests of
      [hashlib], the parser of [json], [str.upper], the clock) are the fields
      of the class [Runtime]. The clock gives one time for a whole run;
      the outcomes the properties range over carry any times.
    - Logging is not modelled.
    - A rendered document is modelled by the values interpolated into its
      f-string template, in a record named after the template; the static
      text of the template is left out. Building a document and writing it
      to its file are two steps: the write fails on text that cannot be
      encoded. *)

From Stdlib Require Import String Ascii List ZArith Lia Bool Arith.
From Stdlib Require Import Floats Uint63 DecimalString.
From Stdlib Require Import Sorting.Permutation Sorting.Sorted.
Import ListNotations.
Open Scope string_scope.

(** ** Python values *)

#[local] Unset Elimination Schemes.
Inductive json : Type :=
| JNull
| JBool (b : bool)
| JInt (z : Z)
| JFloat (f : float)
| JStr (s : string)
| JList (l : list json)
| JDict (d : list (string * json)).
#[local] Set Elimination Schemes.

Definition dict : Type := list (string * json).

(** Exceptions, by class, with the arguments their message is made of. *)
Inductive exn : Type :=
| ValueError (msg : string)
| FileNotFoundError (msg : string)
| JSONDecodeError (msg : string) (lineno colno pos : Z)
| OSError (errno : Z) (strerror filename : string)
| TypeError (msg : string)
| AttributeError (msg : string)
| ZeroDivisionError (msg : string)
| UnicodeDecodeError (msg : string)
| UnicodeEncodeError (msg : string)
| RecursionError (msg : string).

Definition result (A : Type) : Type := (exn + A)%type.

Definition ret {A} (a : A) : result A := inr a.
Definition raise {A} (e : exn) : result A := inl e.
Definition bind {A B} (m : result A) (k : A -> result B) : result B :=
  match m with
  | inl e => inl e
  | inr a => k a
  end.

Declare Scope py_scope.
Delimit Scope py_scope with py.
Notation "x <- m ;; k" := (bind m (fun x => k))
  (at level 61, m at next level, right associativity) : py_scope.
Open Scope py_scope.

Fixpoint mapM {A B} (f : A -> result B) (l : list A) : result (list B) :=
  match l with
  | [] => ret []
  | a :: l' => b <- f a ;; bs <- mapM f l' ;; ret (b :: bs)
  end.

Definition string_of_Z (z : Z) : string := NilZero.string_of_int (Z.to_int z).

Definition squote (s : string) : string := "'" ++ s ++ "'".

(** [str(e)] *)
Definition str_exn (e : exn) : string :=
  match e with
  | ValueError m | FileNotFoundError m | TypeError m
  | AttributeError m | ZeroDivisionError m
  | UnicodeDecodeError m | UnicodeEncodeError m | RecursionError m => m
  | JSONDecodeError m l c p =>
      m ++ ": line " ++ string_of_Z l ++ " column " ++ string_of_Z c
        ++ " (char " ++ string_of_Z p ++ ")"
  | OSError n s f =>
      "[Errno " ++ string_of_Z n ++ "] " ++ s ++ ": " ++ squote f
  end.

(** [type(v).__name__] *)
Definition type_name (v : json) : string :=
  match v with
  | JNull => "NoneType"
  | JBool _ => "bool"
  | JInt _ => "int"
  | JFloat _ => "float"
  | JStr _ => "str"
  | JList _ => "list"
  | JDict _ => "dict"
  end.

(** [bool(v)] *)
Definition truthy (v : json) : bool :=
  match v with
  | JNull => false
  | JBool b => b
  | JInt z => negb (z =? 0)%Z
  | JFloat f => negb (PrimFloat.eqb f 0%float)
  | JStr s => negb (s =? "")
  | JList l => negb (Nat.eqb (List.length l) 0)
  | JDict d => negb (Nat.eqb (List.length d) 0)
  end.

(** ** Dictionaries *)

Fixpoint lookup (k : string) (d : dict) : option json :=
  match d with
  | [] => None
  | (k', v) :: d' => if k' =? k then Some v else lookup k d'
  end.

(** [d.keys()] *)
Definition keys (d : dict) : list string := map fst d.

(** [k in d] for a dictionary *)
Definition has_key (k : string) (d : dict) : bool :=
  existsb (String.eqb k) (keys d).

(** [d.get(k, default)] for a dictionary *)
Definition dict_get (d : dict) (k : string) (default : json) : json :=
  match lookup k d with
  | Some v => v
  | None => default
  end.

(** [sep.join(l)] for a list of strings *)
Fixpoint join (sep : string) (l : list string) : string :=
  match l with
  | [] => ""
  | [s] => s
  | s :: l' => s ++ sep ++ join sep l'
  end.

(** [s[:n]], on a text whose characters are single bytes. *)
Definition take (n : nat) (s : string) : string := substring 0 n s.

(** [sub in s] for strings *)
Definition str_contains (sub s : string) : bool :=
  match index 0 sub s with
  | Some _ => true
  | None => false
  end.

(** [k in v]: key membership for a dictionary, element equality for a list,
    substring search for a string; other values are not containers. *)
Definition py_in (k : string) (v : json) : result bool :=
  match v with
  | JDict d => ret (has_key k d)
  | JList l =>
      ret (existsb (fun x => match x with JStr s => s =? k | _ => false end) l)
  | JStr s => ret (str_contains k s)
  | _ => raise (TypeError ("argument of type " ++ squote (type_name v)
                            ++ " is not iterable"))
  end.

(** [v.get(k, default)]: only a dictionary has the method. *)
Definition py_get (v : json) (k : string) (default : json) : result json :=
  match v with
  | JDict d => ret (dict_get d k default)
  | _ => raise (AttributeError (squote (type_name v)
                                 ++ " object has no attribute 'get'"))
  end.

(** ** The runtime the code runs on *)

(** The constructors of [hashlib] that take no argument and whose
    [hexdigest()] takes none. *)
Inductive hash_algo : Type :=
| MD5 | SHA1 | SHA224 | SHA256 | SHA384 | SHA512
| BLAKE2B | BLAKE2S | SHA3_224 | SHA3_256 | SHA3_384 | SHA3_512
| SHAKE_128 | SHAKE_256.

(** What [json.load] raises on a file it refuses: [json.JSONDecodeError] for
    text that is not JSON, [UnicodeDecodeError] for bytes that are not text in
    the codec of [open], [ValueError] for an integer literal over the digit
    limit, [RecursionError] for nesting too deep. *)
Inductive json_error : Type :=
| mk_json_error (msg : string) (lineno colno pos : Z)
| json_not_decodable (codec detail : string)
| json_int_too_long (detail : string)
| json_too_deep (detail : string).

(** The exception a parser failure is. *)
Definition json_error_exn (e : json_error) : exn :=
  match e with
  | mk_json_error msg lineno colno pos => JSONDecodeError msg lineno colno pos
  | json_not_decodable codec detail =>
      UnicodeDecodeError (squote codec ++ " codec can't decode " ++ detail)
  | json_int_too_long detail => ValueError ("Exceeds the limit (" ++ detail)
  | json_too_deep detail =>
      RecursionError ("maximum recursion depth exceeded" ++ detail)
  end.

Class Runtime : Type :=
  { (** [hashlib.<algo>(data).hexdigest()] *)
    hexdigest : hash_algo -> string -> string;
    (** [json.load] on the text of a file *)
    json_loads : string -> json_error + json;
    (** the number and string encoders of [json.dumps] *)
    floatstr : float -> string;
    encode_basestring_ascii : string -> string;
    (** [str.upper] and [str.lower] *)
    str_upper : string -> string;
    str_lower : string -> string;
    (** [datetime.utcnow().isoformat()] *)
    utcnow_isoformat : string }.

(** What a path names. [Absent]: [exists()] is false. [Unreadable]: the path
    exists and [open] raises [OSError]. *)
Inductive file_state : Type :=
| Absent
| Unreadable (errno : Z) (strerror : string)
| Regular (content : string).

(** [files p]: what path [p] names; [glob_json d]: [None] when directory [d]
    does not exist, otherwise the paths [d.glob("*.json")] yields, in the
    order it yields them. *)
Record filesystem : Type :=
  { files : string -> file_state;
    glob_json : string -> option (list string) }.

(** ** [json.dumps] *)

(** [sorted(dct.items())]: the keys of a dictionary are distinct, so the
    order of the pairs is the order of their keys. *)
Fixpoint insert_item {V} (kv : string * V) (l : list (string * V))
  : list (string * V) :=
  match l with
  | [] => [kv]
  | kv' :: l' =>
      if String.leb (fst kv) (fst kv') then kv :: l
      else kv' :: insert_item kv l'
  end.

Fixpoint sort_items {V} (l : list (string * V)) : list (string * V) :=
  match l with
  | [] => []
  | kv :: l' => insert_item kv (sort_items l')
  end.

(** The order [sort_items] sorts by. *)
Definition key_le {V} (a b : string * V) : Prop := String.leb (fst a) (fst b) = true.

Section Engine.

Context {R : Runtime}.

(** [json.dumps(v, sort_keys=sort_keys)]. With [sort_keys] the items of a
    dictionary are written in the order of their keys; the values are
    encoded first here and the pairs ordered after, which writes the same
    text since only the keys are compared. *)
Fixpoint json_dumps (sort_keys : bool) (v : json) : string :=
  match v with
  | JNull => "null"
  | JBool true => "true"
  | JBool false => "false"
  | JInt z => string_of_Z z
  | JFloat f => floatstr f
  | JStr s => encode_basestring_ascii s
  | JList l => "[" ++ join ", " (map (json_dumps sort_keys) l) ++ "]"
  | JDict d =>
      let items := map (fun kv => (fst kv, json_dumps sort_keys (snd kv))) d in
      let items := if sort_keys then sort_items items else items in
      "{" ++ join ", "
               (map (fun kv => encode_basestring_ascii (fst kv) ++ ": " ++ snd kv)
                    items)
          ++ "}"
  end.

(** ** Checksum service *)

Definition LINEAGE_ID : string := "RepoReportEcho_092425".

Definition SUPPORTED_HASH_ALGORITHMS : list string := ["sha256"; "md5"; "sha1"].

(** [getattr(hashlib, name)()], for the names of [hash_algo]. *)
Definition hashlib_algorithms : list (string * hash_algo) :=
  [("md5", MD5); ("sha1", SHA1); ("sha224", SHA224); ("sha256", SHA256);
   ("sha384", SHA384); ("sha512", SHA512); ("blake2b", BLAKE2B);
   ("blake2s", BLAKE2S); ("sha3_224", SHA3_224); ("sha3_256", SHA3_256);
   ("sha3_384", SHA3_384); ("sha3_512", SHA3_512)].

Fixpoint assoc {V} (k : string) (l : list (string * V)) : option V :=
  match l with
  | [] => None
  | (k', v) :: l' => if k' =? k then Some v else assoc k l'
  end.

(** A hash object: the algorithm and the bytes fed to it so far. *)
Record hash_object : Type := { algo : hash_algo; fed : string }.

(** The two constructors of [hashlib] whose digest has no fixed length. *)
Definition hashlib_xof : list (string * hash_algo) :=
  [("shake_128", SHAKE_128); ("shake_256", SHAKE_256)].

(** [getattr(hashlib, algorithm)()]: a constructor of the module gives a
    hash object; a name the module does not have raises [AttributeError]. The
    module's attributes that are not constructors ([new], [pbkdf2_hmac],
    ...) are not told apart from absent names: calling them without arguments
    fails as well. *)
Definition hashlib_new (algorithm : string) : result hash_object :=
  match assoc algorithm hashlib_algorithms with
  | Some a => ret {| algo := a; fed := "" |}
  | None =>
      match assoc algorithm hashlib_xof with
      | Some a => ret {| algo := a; fed := "" |}
      | None => raise (AttributeError ("module 'hashlib' has no attribute "
                                         ++ squote algorithm))
      end
  end.

Definition update (h : hash_object) (chunk : string) : hash_object :=
  {| algo := algo h; fed := fed h ++ chunk |}.

Definition needs_length (a : hash_algo) : bool :=
  match a with
  | SHAKE_128 | SHAKE_256 => true
  | _ => false
  end.

(** [hash_func.hexdigest()], called without a length. *)
Definition hash_hexdigest (h : hash_object) : result string :=
  if needs_length (algo h)
  then raise (TypeError "hexdigest() missing required argument 'length' (pos 1)")
  else ret (hexdigest (algo h) (fed h)).

(** [generate_checksum(data, algorithm)]. [data.encode('utf-8')] is the
    identity on the bytes that carry the text; [data] is taken to be
    encodable, as is the output of [json.dumps] that the verifier passes. *)
Definition generate_checksum (data : string) (algorithm : string) : result string :=
  if negb (existsb (String.eqb algorithm) SUPPORTED_HASH_ALGORITHMS)
  then raise (ValueError ("Unsupported hash algorithm: " ++ algorithm))
  else
    hash_func <- hashlib_new algorithm ;;
    let hash_func := update hash_func data in
    hash_hexdigest hash_func.

(** [iter(lambda: f.read(4096), b"")]: the successive reads of at most [n]
    bytes, up to the first empty one. [fuel] bounds the number of reads; the
    length of the file is always enough. *)
Fixpoint read_chunks (fuel n : nat) (rest : string) : list string :=
  match fuel with
  | O => []
  | S fuel' =>
      let chunk := substring 0 n rest in
      if chunk =? "" then []
      else chunk :: read_chunks fuel' n (substring n (String.length rest - n) rest)
  end.

Definition open_file (fs : filesystem) (file_path : string) : result string :=
  match files fs file_path with
  | Absent => raise (OSError 2 "No such file or directory" file_path)
  | Unreadable n s => raise (OSError n s file_path)
  | Regular content => ret content
  end.

Definition path_exists (fs : filesystem) (p : string) : bool :=
  match files fs p with
  | Absent => false
  | _ => true
  end.

(** [generate_file_checksum(file_path, algorithm)] *)
Definition generate_file_checksum (fs : filesystem) (file_path : string)
    (algorithm : string) : result string :=
  if negb (path_exists fs file_path)
  then raise (FileNotFoundError ("File not found: " ++ file_path))
  else
    hash_func <- hashlib_new algorithm ;;
    content <- open_file fs file_path ;;
    let hash_func :=
      fold_left update (read_chunks (String.length content) 4096 content) hash_func in
    hash_hexdigest hash_func.

(** ** Verification orchestrator *)

(** The verifier object: [self.base_path] and [self.verification_results]. *)
Record EchoForgeVerifier : Type :=
  { base_path : string;
    verification_results : list dict }.

(** [Path / name], on paths written as [str(Path(...))] writes them: the
    path ["."] stands for no component at all, so [Path(".") / "data"] is
    ["data"]. *)
Definition path_join (p name : string) : string :=
  if p =? "." then name else p ++ "/" ++ name.

Definition data_path (self : EchoForgeVerifier) : string :=
  path_join (path_join (base_path self) "data") "cve".

(** [EchoForgeVerifier(base_path)] *)
Definition init (base : string) : EchoForgeVerifier :=
  {| base_path := base; verification_results := [] |}.

(** [with open(path, 'r') as f: json.load(f)]; a [JSONDecodeError] is logged
    and raised again, any other exception of the parser goes through. *)
Definition json_load (fs : filesystem) (path : string) : result json :=
  content <- open_file fs path ;;
  match json_loads content with
  | inl e => raise (json_error_exn e)
  | inr v => ret v
  end.

Fixpoint filterM {A} (p : A -> result bool) (l : list A) : result (list A) :=
  match l with
  | [] => ret []
  | a :: l' =>
      b <- p a ;;
      rest <- filterM p l' ;;
      ret (if b then a :: rest else rest)
  end.

Definition required_fields : list string :=
  ["cve_id"; "description"; "severity"; "published_date"].

(** The dictionary [verification_result] of [verify_cve_manifest]. *)
Definition verification_result (manifest_path : string) (cve_id severity : json)
    (file_checksum content_checksum : string) (missing_fields : list string) : dict :=
  [("manifest_file", JStr manifest_path);
   ("cve_id", cve_id);
   ("severity", severity);
   ("file_checksum", JStr file_checksum);
   ("content_checksum", JStr content_checksum);
   ("missing_fields", JList (map JStr missing_fields));
   ("valid", JBool (Nat.eqb (List.length missing_fields) 0));
   ("timestamp", JStr utcnow_isoformat);
   ("lineage_id", JStr LINEAGE_ID)].

(** [verify_cve_manifest] up to the dictionary it builds: everything before
    [self.verification_results.append]. Nothing here reads or writes the
    verifier's state. *)
Definition check_manifest (fs : filesystem) (manifest_path : string) : result dict :=
  if negb (path_exists fs manifest_path)
  then raise (FileNotFoundError ("CVE manifest not found: " ++ manifest_path))
  else
    manifest_data <- json_load fs manifest_path ;;
    missing_fields <-
      filterM (fun field => b <- py_in field manifest_data ;; ret (negb b))
              required_fields ;;
    file_checksum <- generate_file_checksum fs manifest_path "sha256" ;;
    content_checksum <- generate_checksum (json_dumps true manifest_data) "sha256" ;;
    cve_id <- py_get manifest_data "cve_id" (JStr "UNKNOWN") ;;
    severity <- py_get manifest_data "severity" (JStr "UNKNOWN") ;;
    ret (verification_result manifest_path cve_id severity
           file_checksum content_checksum missing_fields).

Definition append (self : EchoForgeVerifier) (r : dict) : EchoForgeVerifier :=
  {| base_path := base_path self;
     verification_results := verification_results self ++ [r] |}.

(** [verify_cve_manifest(manifest_path)]: the value returned or the exception
    raised, and the verifier afterwards. *)
Definition verify_cve_manifest (fs : filesystem) (self : EchoForgeVerifier)
    (manifest_path : string) : result dict * EchoForgeVerifier :=
  match check_manifest fs manifest_path with
  | inl e => (inl e, self)
  | inr r => (inr r, append self r)
  end.

(** The dictionary [error_result] of [batch_verify_manifests]. *)
Definition error_result (manifest_file : string) (e : exn) : dict :=
  [("manifest_file", JStr manifest_file);
   ("cve_id", JStr "ERROR");
   ("severity", JStr "ERROR");
   ("file_checksum", JStr "");
   ("content_checksum", JStr "");
   ("missing_fields", JList []);
   ("valid", JBool false);
   ("error", JStr (str_exn e));
   ("timestamp", JStr utcnow_isoformat);
   ("lineage_id", JStr LINEAGE_ID)].

(** The loop of [batch_verify_manifests]; [results] is the list built so far. *)
Fixpoint batch_loop (fs : filesystem) (self : EchoForgeVerifier)
    (manifest_files : list string) (results : list dict)
  : list dict * EchoForgeVerifier :=
  match manifest_files with
  | [] => (results, self)
  | manifest_file :: rest =>
      match verify_cve_manifest fs self manifest_file with
      | (inr r, self') => batch_loop fs self' rest (results ++ [r])
      | (inl e, self') =>
          batch_loop fs self' rest (results ++ [error_result manifest_file e])
      end
  end.

(** [batch_verify_manifests(manifest_directory)] *)
Definition batch_verify_manifests (fs : filesystem) (self : EchoForgeVerifier)
    (manifest_directory : option string) : list dict * EchoForgeVerifier :=
  let manifest_directory :=
    match manifest_directory with
    | None => data_path self
    | Some d => d
    end in
  match glob_json fs manifest_directory with
  | None => ([], self)
  | Some manifest_files => batch_loop fs self manifest_files []
  end.

(** ** Report renderers *)

(** [sep.join(v)]: [v] must be an iterable of strings. *)
Definition py_join (sep : string) (v : json) : result string :=
  match v with
  | JList l =>
      items <- mapM (fun x => match x with
                              | JStr s => ret s
                              | _ => raise (TypeError
                                       ("sequence item: expected str instance, "
                                          ++ type_name x ++ " found"))
                              end) l ;;
      ret (join sep items)
  | JStr s => ret (join sep (map (fun c => String c "") (list_ascii_of_string s)))
  | JDict d => ret (join sep (keys d))
  | _ => raise (TypeError "can only join an iterable")
  end.

(** [s or default] for a string [s] *)
Definition str_or (s default : string) : string :=
  if s =? "" then default else s.

(** [", ".join(result.get('missing_fields', [])) or "None"] *)
Definition issues_of (r : dict) : result string :=
  joined <- py_join ", " (dict_get r "missing_fields" (JList [])) ;;
  ret (str_or joined "None").

(** [result.get('file_checksum', '')[:16] + "..." if result.get('file_checksum')
    else "N/A"]; slicing and [+ "..."] need a string. *)
Definition checksum_short_of (r : dict) : result string :=
  if truthy (dict_get r "file_checksum" JNull)
  then match dict_get r "file_checksum" (JStr "") with
       | JStr s => ret (take 16 s ++ "...")
       | v => raise (TypeError ("unsupported operand for [:16] + str: "
                                  ++ squote (type_name v)))
       end
  else ret "N/A".

(** [result.get('valid', False)] as a condition *)
Definition is_valid (r : dict) : bool := truthy (dict_get r "valid" (JBool false)).

(** [sum(1 for r in results if r.get('valid', False))] *)
Definition count_valid (results : list dict) : Z :=
  Z.of_nat (List.length (filter is_valid results)).

(** [len(results)] *)
Definition len {A} (l : list A) : Z := Z.of_nat (List.length l).

(** [float(n)] for a count [n] (exact below 2^53) *)
Definition float_of_Z (z : Z) : float := PrimFloat.of_uint63 (Uint63.of_Z z).

(** [a / b] on integers *)
Definition truediv (a b : Z) : result float :=
  if (b =? 0)%Z then raise (ZeroDivisionError "division by zero")
  else ret (PrimFloat.div (float_of_Z a) (float_of_Z b)).

(** [valid_count/len(results)*100] *)
Definition percentage (valid_count total : Z) : result float :=
  q <- truediv valid_count total ;;
  ret (PrimFloat.mul q (float_of_Z 100)).

Definition status_text_of (r : dict) : string :=
  if is_valid r then "✅ VALID" else "❌ INVALID".

(** *** CSV *)

(** The file [csv.DictWriter] writes: the header line and the rows, a cell
    holding the value [writerow] formats. *)
Record csv_report : Type :=
  { csv_header : list string;
    csv_rows : list (list json) }.

(** [DictWriter._dict_to_list(rowdict)] with the defaults
    [extrasaction='raise'] and [restval='']. *)
Definition dict_to_list (fieldnames : list string) (rowdict : dict)
  : result (list json) :=
  let wrong_fields :=
    filter (fun k => negb (existsb (String.eqb k) fieldnames)) (keys rowdict) in
  match wrong_fields with
  | [] => ret (map (fun key => dict_get rowdict key (JStr "")) fieldnames)
  | _ => raise (ValueError ("dict contains fields not in fieldnames: "
                              ++ join ", " (map squote wrong_fields)))
  end.


(** *** Markdown *)

Record markdown_row : Type :=
  { md_cve_id : json;
    md_severity : json;
    md_status : string;
    md_checksum_short : string;
    md_issues : string }.

(** The interpolations of the Markdown template: the three counts, the
    success rate (written with [:.1f]), and the table rows. *)
Record markdown_report : Type :=
  { md_lineage : string;
    md_total : Z;
    md_valid : Z;
    md_invalid : Z;
    md_success_rate : float;
    md_rows : list markdown_row }.

Definition markdown_row_of (r : dict) : result markdown_row :=
  let status := status_text_of r in
  issues <- issues_of r ;;
  checksum_short <- checksum_short_of r ;;
  ret {| md_cve_id := dict_get r "cve_id" (JStr "UNKNOWN");
         md_severity := dict_get r "severity" (JStr "UNKNOWN");
         md_status := status;
         md_checksum_short := checksum_short;
         md_issues := issues |}.

(** [generate_markdown_report(results)] up to [markdown_content]: the document
    as it is built; the write of the file is [markdown_report_file]. In the
    template the success rate is
    the replacement field [{(valid_count/len(results)*100):.1f}]; the text
    [% if results else 0] after it is outside the braces, so it is literal
    text of the document and the division is evaluated for every list. *)
Definition generate_markdown_report (results : list dict) : result markdown_report :=
  let valid_count := count_valid results in
  let invalid_count := (len results - valid_count)%Z in
  success_rate <- percentage valid_count (len results) ;;
  rows <- mapM markdown_row_of results ;;
  ret {| md_lineage := LINEAGE_ID;
         md_total := len results;
         md_valid := valid_count;
         md_invalid := invalid_count;
         md_success_rate := success_rate;
         md_rows := rows |}.

(** *** HTML *)

Record html_row : Type :=
  { html_cve_id : json;
    html_severity : json;
    html_status_class : string;
    html_status_text : string;
    html_checksum_short : string;
    html_issues : string;
    html_timestamp : json }.

(** The interpolations of the HTML template; [html_success_rate] is the
    integer [0] or a float, written with [:.1f]. *)
Record html_report : Type :=
  { html_lineage : string;
    html_total : Z;
    html_valid : Z;
    html_invalid : Z;
    html_success_rate : json;
    html_rows : list html_row }.

Definition html_row_of (r : dict) : result html_row :=
  let status_class := if is_valid r then "valid" else "invalid" in
  let status_text := status_text_of r in
  issues <- issues_of r ;;
  checksum_short <- checksum_short_of r ;;
  ret {| html_cve_id := dict_get r "cve_id" (JStr "UNKNOWN");
         html_severity := dict_get r "severity" (JStr "UNKNOWN");
         html_status_class := status_class;
         html_status_text := status_text;
         html_checksum_short := checksum_short;
         html_issues := issues;
         html_timestamp := dict_get r "timestamp" (JStr "N/A") |}.

(** [(valid_count/len(results)*100) if results else 0] *)
Definition success_rate_of (valid_count : Z) (results : list dict) : result json :=
  match results with
  | [] => ret (JInt 0)
  | _ => p <- percentage valid_count (len results) ;; ret (JFloat p)
  end.

(** [generate_html_report(results)] up to [html_content]: the document as it
    is built. The write of the file is [html_report_file]. *)
Definition generate_html_report (results : list dict) : result html_report :=
  let valid_count := count_valid results in
  let invalid_count := (len results - valid_count)%Z in
  success_rate <- success_rate_of valid_count results ;;
  rows <- mapM html_row_of results ;;
  ret {| html_lineage := LINEAGE_ID;
         html_total := len results;
         html_valid := valid_count;
         html_invalid := invalid_count;
         html_success_rate := success_rate;
         html_rows := rows |}.

End Engine.

(** ** Writing a document to its file

    The reports are written with [open(path, 'w')] and [f.write], which
    encode the text; the codec is taken to be UTF-8. A Python [str] can hold a
    lone surrogate (U+D800 to U+DFFF), which UTF-8 refuses. Text is carried
    here as its UTF-8 bytes, generalized so that a lone surrogate is the three
    bytes [ED A0..BF xx] it would have. *)

Fixpoint has_surrogate (s : string) : bool :=
  match s with
  | EmptyString => false
  | String c rest =>
      match rest with
      | EmptyString => false
      | String d _ =>
          (Nat.eqb (nat_of_ascii c) 237 && Nat.leb 160 (nat_of_ascii d)
           && Nat.leb (nat_of_ascii d) 191)
          || has_surrogate rest
      end
  end.

(** [f.write(text)] for a text made of static template text and of [texts]:
    it raises as soon as one of them cannot be encoded. *)
Definition surrogates_not_allowed : exn :=
  UnicodeEncodeError "'utf-8' codec can't encode character: surrogates not allowed".

Definition write_text (texts : list string) : result unit :=
  if existsb has_surrogate texts
  then raise surrogates_not_allowed
  else ret tt.

(** The text of [str(v)] that comes unescaped from the data: a string is
    written as it is; any other value is written with digits, names and the
    [repr] of the strings inside it, which escapes a surrogate. *)
Definition raw_text (v : json) : list string :=
  match v with
  | JStr s => [s]
  | _ => []
  end.

Definition markdown_row_texts (row : markdown_row) : list string :=
  (raw_text (md_cve_id row) ++ raw_text (md_severity row)
   ++ [md_status row; md_checksum_short row; md_issues row])%list.

Definition markdown_texts (doc : markdown_report) : list string :=
  md_lineage doc :: flat_map markdown_row_texts (md_rows doc).

Definition html_row_texts (row : html_row) : list string :=
  (raw_text (html_cve_id row) ++ raw_text (html_severity row)
   ++ [html_status_class row; html_status_text row; html_checksum_short row;
       html_issues row]
   ++ raw_text (html_timestamp row))%list.

Definition html_texts (doc : html_report) : list string :=
  html_lineage doc :: flat_map html_row_texts (html_rows doc).


Section Files.

Context {R : Runtime}.

(** [generate_markdown_report] and [generate_html_report] with the write of
    the file: the document is built, then written in one [f.write]. The
    sidecar that follows digests the file just written and always succeeds. *)
Definition markdown_report_file (results : list dict) : result markdown_report :=
  doc <- generate_markdown_report results ;;
  _ <- write_text (markdown_texts doc) ;;
  ret doc.

Definition html_report_file (results : list dict) : result html_report :=
  doc <- generate_html_report results ;;
  _ <- write_text (html_texts doc) ;;
  ret doc.

(** [writer.writerow] of one dictionary: the row is made, then written. *)
Definition write_csv_row (fieldnames : list string) (rowdict : dict)
  : result (list json) :=
  row <- dict_to_list fieldnames rowdict ;;
  _ <- write_text (flat_map raw_text row) ;;
  ret row.

(** [generate_csv_report] with the write of the file: the header is written,
    then the rows one after the other, each as soon as it is made. *)
Definition csv_report_file (results : list dict) : result (option csv_report) :=
  match results with
  | [] => ret None
  | first :: _ =>
      let fieldnames := keys first in
      _ <- write_text fieldnames ;;
      rows <- mapM (write_csv_row fieldnames) results ;;
      ret (Some {| csv_header := fieldnames; csv_rows := rows |})
  end.

End Files.

(** ** The dashboard of [HTMLDialectProcessor] *)

Module Html.
Section Dashboard.

Context {R : Runtime}.

(** [v[:n]] *)
Definition py_slice_to (n : nat) (v : json) : result json :=
  match v with
  | JStr s => ret (JStr (take n s))
  | JList l => ret (JList (firstn n l))
  | _ => raise (TypeError (squote (type_name v) ++ " object is not subscriptable"))
  end.

(** [len(v)] *)
Definition py_len (v : json) : result Z :=
  match v with
  | JStr s => ret (Z.of_nat (String.length s))
  | JList l => ret (len l)
  | JDict d => ret (len d)
  | _ => raise (TypeError ("object of type " ++ squote (type_name v) ++ " has no len()"))
  end.

(** [v + s] for a string [s] *)
Definition py_add_str (v : json) (s : string) : result json :=
  match v with
  | JStr s0 => ret (JStr (s0 ++ s))
  | _ => raise (TypeError ("unsupported operand type(s) for +: "
                             ++ squote (type_name v) ++ " and 'str'"))
  end.

(** [cve.get('severity', 'UNKNOWN').upper()] *)
Definition severity_upper (cve : json) : result string :=
  severity <- py_get cve "severity" (JStr "UNKNOWN") ;;
  match severity with
  | JStr s => ret (str_upper s)
  | v => raise (AttributeError (squote (type_name v)
                                  ++ " object has no attribute 'upper'"))
  end.

(** [counts.get(k, 0)] *)
Definition count_get (counts : list (string * Z)) (k : string) : Z :=
  match assoc k counts with
  | Some n => n
  | None => 0%Z
  end.

(** [counts[k] = n] *)
Fixpoint set_item (k : string) (n : Z) (counts : list (string * Z))
  : list (string * Z) :=
  match counts with
  | [] => [(k, n)]
  | (k', n') :: counts' =>
      if k' =? k then (k, n) :: counts' else (k', n') :: set_item k n counts'
  end.

(** The loop filling [severity_counts]. *)
Fixpoint count_severities (cve_data : list json) (severity_counts : list (string * Z))
  : result (list (string * Z)) :=
  match cve_data with
  | [] => ret severity_counts
  | cve :: rest =>
      severity <- severity_upper cve ;;
      count_severities rest
        (set_item severity (count_get severity_counts severity + 1)%Z severity_counts)
  end.

Record cve_row : Type :=
  { cr_cve_id : json;
    cr_severity_class : string;
    cr_severity : string;
    cr_cvss_score : json;
    cr_pub_date : json;
    cr_description : json }.

Definition cve_row_of (cve : json) : result cve_row :=
  cve_id <- py_get cve "cve_id" (JStr "UNKNOWN") ;;
  severity <- severity_upper cve ;;
  cvss_score <- py_get cve "cvss_score" (JStr "N/A") ;;
  published <- py_get cve "published_date" JNull ;;
  pub_date <-
    (if truthy published
     then (d <- py_get cve "published_date" (JStr "Unknown") ;; py_slice_to 10 d)
     else ret (JStr "Unknown")) ;;
  description <- py_get cve "description" (JStr "No description available") ;;
  n <- py_len description ;;
  description <-
    (if (100 <? n)%Z
     then (d <- py_slice_to 100 description ;; py_add_str d "...")
     else ret description) ;;
  ret {| cr_cve_id := cve_id;
         cr_severity_class := str_lower severity;
         cr_severity := severity;
         cr_cvss_score := cvss_score;
         cr_pub_date := pub_date;
         cr_description := description |}.

Record verification_row : Type :=
  { vr_cve_id : json;
    vr_status_class : string;
    vr_status_text : string;
    vr_severity : json;
    vr_checksum : string;
    vr_issues : string;
    vr_timestamp_short : json }.

Definition verification_row_of (r : dict) : result verification_row :=
  let cve_id := dict_get r "cve_id" (JStr "UNKNOWN") in
  let valid := dict_get r "valid" (JBool false) in
  let severity := dict_get r "severity" (JStr "UNKNOWN") in
  checksum <- checksum_short_of r ;;
  issues <- issues_of r ;;
  timestamp_short <-
    (if truthy (dict_get r "timestamp" JNull)
     then py_slice_to 16 (dict_get r "timestamp" (JStr ""))
     else ret (JStr "Unknown")) ;;
  ret {| vr_cve_id := cve_id;
         vr_status_class := if truthy valid then "status-valid" else "status-invalid";
         vr_status_text := if truthy valid then "✅ VALID" else "❌ INVALID";
         vr_severity := severity;
         vr_checksum := checksum;
         vr_issues := issues;
         vr_timestamp_short := timestamp_short |}.

(** The interpolations of the dashboard template. The success rate is written
    twice, as it is and with [:.1f]. No count of invalid outcomes is
    written. *)
Record dashboard : Type :=
  { db_lineage : string;
    db_total_cves : Z;
    db_critical : Z;
    db_high : Z;
    db_medium : Z;
    db_low : Z;
    db_success_rate : json;
    db_total_verifications : Z;
    db_valid_verifications : Z;
    db_cve_rows : list cve_row;
    db_verification_rows : list verification_row }.

(** [total_verifications > 0] decides here, where the reports test
    [results]. *)
Definition dashboard_success_rate (valid_verifications total_verifications : Z)
  : result json :=
  if (0 <? total_verifications)%Z
  then (p <- percentage valid_verifications total_verifications ;; ret (JFloat p))
  else ret (JInt 0).

(** [generate_dashboard_html(cve_data, verification_results)] *)
Definition generate_dashboard_html (cve_data : list json)
    (verification_results : list dict) : result dashboard :=
  let total_cves := len cve_data in
  let total_verifications := len verification_results in
  let valid_verifications := count_valid verification_results in
  severity_counts <- count_severities cve_data [] ;;
  success_rate <- dashboard_success_rate valid_verifications total_verifications ;;
  cve_rows <- mapM cve_row_of (firstn 50 cve_data) ;;
  verification_rows <- mapM verification_row_of (firstn 50 verification_results) ;;
  ret {| db_lineage := LINEAGE_ID;
         db_total_cves := total_cves;
         db_critical := count_get severity_counts "CRITICAL";
         db_high := count_get severity_counts "HIGH";
         db_medium := count_get severity_counts "MEDIUM";
         db_low := count_get severity_counts "LOW";
         db_success_rate := success_rate;
         db_total_verifications := total_verifications;
         db_valid_verifications := valid_verifications;
         db_cve_rows := cve_rows;
         db_verification_rows := verification_rows |}.

(** The loading loop of [process_and_generate_dashboard]: a file that cannot
    be opened or parsed is logged and skipped. *)
Definition load_cve_data (fs : filesystem) (base : string) : list json :=
  let cve_directory := path_join (path_join base "data") "cve" in
  match glob_json fs cve_directory with
  | None => []
  | Some json_files =>
      flat_map (fun json_file => match json_load fs json_file with
                                 | inr cve => [cve]
                                 | inl _ => []
                                 end) json_files
  end.

(** The dictionary appended to [verification_results] for each loaded
    record (the comment in the code: simulate for now). *)
Definition simulated_result (cve : json) : result dict :=
  cve_id <- py_get cve "cve_id" (JStr "UNKNOWN") ;;
  severity <- py_get cve "severity" (JStr "UNKNOWN") ;;
  ret [("cve_id", cve_id);
       ("severity", severity);
       ("valid", JBool true);
       ("file_checksum", JStr (hexdigest SHA256 (json_dumps false cve)));
       ("missing_fields", JList []);
       ("timestamp", JStr utcnow_isoformat);
       ("lineage_id", JStr LINEAGE_ID)].

Definition cve_row_texts (row : cve_row) : list string :=
  (raw_text (cr_cve_id row) ++ [cr_severity_class row; cr_severity row]
   ++ raw_text (cr_cvss_score row) ++ raw_text (cr_pub_date row)
   ++ raw_text (cr_description row))%list.

Definition verification_row_texts (row : verification_row) : list string :=
  (raw_text (vr_cve_id row) ++ [vr_status_class row; vr_status_text row]
   ++ raw_text (vr_severity row) ++ [vr_checksum row; vr_issues row]
   ++ raw_text (vr_timestamp_short row))%list.

Definition dashboard_texts (doc : dashboard) : list string :=
  (db_lineage doc :: flat_map cve_row_texts (db_cve_rows doc)
   ++ flat_map verification_row_texts (db_verification_rows doc))%list.

(** [process_and_generate_dashboard()], as the dashboard it writes to
    [docs/index.html]: the dashboard is built, then written. *)
Definition process_and_generate_dashboard (fs : filesystem) (base : string)
  : result dashboard :=
  let cve_data := load_cve_data fs base in
  verification_results <- mapM simulated_result cve_data ;;
  dashboard_html <- generate_dashboard_html cve_data verification_results ;;
  _ <- write_text (dashboard_texts dashboard_html) ;;
  ret dashboard_html.

End Dashboard.
End Html.

(** ** Notions used in the statements *)

#[local] Unset Elimination Schemes.

(** Two values are equal up to the order of the items of their dictionaries,
    at every depth. *)
Inductive json_equiv : json -> json -> Prop :=
| equiv_null : json_equiv JNull JNull
| equiv_bool b : json_equiv (JBool b) (JBool b)
| equiv_int z : json_equiv (JInt z) (JInt z)
| equiv_float f : json_equiv (JFloat f) (JFloat f)
| equiv_str s : json_equiv (JStr s) (JStr s)
| equiv_list l1 l2 :
    Forall2 json_equiv l1 l2 -> json_equiv (JList l1) (JList l2)
| equiv_dict d1 d2 d2' :
    Forall2 (fun kv1 kv2 => fst kv1 = fst kv2 /\ json_equiv (snd kv1) (snd kv2))
            d1 d2' ->
    Permutation d2' d2 ->
    json_equiv (JDict d1) (JDict d2).

(** The keys of every dictionary in the value are distinct, as they are in
    any Python dictionary. *)
Inductive distinct_keys : json -> Prop :=
| dk_null : distinct_keys JNull
| dk_bool b : distinct_keys (JBool b)
| dk_int z : distinct_keys (JInt z)
| dk_float f : distinct_keys (JFloat f)
| dk_str s : distinct_keys (JStr s)
| dk_list l : Forall distinct_keys l -> distinct_keys (JList l)
| dk_dict d :
    NoDup (keys d) -> Forall (fun kv => distinct_keys (snd kv)) d ->
    distinct_keys (JDict d).

#[local] Set Elimination Schemes.

(** The two dictionaries of the orchestrator with the time of the clock
    written out: [verification_result] and [error_result] are these at
    [utcnow_isoformat]. *)
Definition verification_result_at (timestamp manifest_path : string)
    (cve_id severity : json) (file_checksum content_checksum : string)
    (missing_fields : list string) : dict :=
  [("manifest_file", JStr manifest_path);
   ("cve_id", cve_id);
   ("severity", severity);
   ("file_checksum", JStr file_checksum);
   ("content_checksum", JStr content_checksum);
   ("missing_fields", JList (map JStr missing_fields));
   ("valid", JBool (Nat.eqb (List.length missing_fields) 0));
   ("timestamp", JStr timestamp);
   ("lineage_id", JStr LINEAGE_ID)].

Definition error_result_at (timestamp manifest_file : string) (e : exn) : dict :=
  [("manifest_file", JStr manifest_file);
   ("cve_id", JStr "ERROR");
   ("severity", JStr "ERROR");
   ("file_checksum", JStr "");
   ("content_checksum", JStr "");
   ("missing_fields", JList []);
   ("valid", JBool false);
   ("error", JStr (str_exn e));
   ("timestamp", JStr timestamp);
   ("lineage_id", JStr LINEAGE_ID)].

(** The dictionaries the orchestrator hands to the renderers: a verified or
    an error outcome, each with the time of its own verification. *)
Inductive is_outcome : dict -> Prop :=
| outcome_verified timestamp path cve_id severity file_checksum content_checksum
                   missing :
    is_outcome (verification_result_at timestamp path cve_id severity
                  file_checksum content_checksum missing)
| outcome_error timestamp path e :
    is_outcome (error_result_at timestamp path e).

(** An outcome without the time it was made at. *)
Definition without_timestamp (r : dict) : dict :=
  filter (fun item => negb (fst item =? "timestamp")) r.


Section Notions.

Context {R : Runtime}.

(** The states a verifier goes through: created by [init], then any calls of
    [verify_cve_manifest] and [batch_verify_manifests], on any file system. *)
Inductive reachable : EchoForgeVerifier -> Prop :=
| reach_init base : reachable (init base)
| reach_verify fs self path :
    reachable self -> reachable (snd (verify_cve_manifest fs self path))
| reach_batch fs self dir :
    reachable self -> reachable (snd (batch_verify_manifests fs self dir)).

(** The files [batch_verify_manifests] enumerates. *)
Definition discovered (fs : filesystem) (self : EchoForgeVerifier)
    (manifest_directory : option string) : list string :=
  let d := match manifest_directory with
           | None => data_path self
           | Some d => d
           end in
  match glob_json fs d with
  | None => []
  | Some manifest_files => manifest_files
  end.

(** The outcomes of the files that [verify_cve_manifest] accepts, in order. *)
Definition verified (fs : filesystem) (manifest_files : list string) : list dict :=
  flat_map (fun f => match check_manifest fs f with
                     | inr r => [r]
                     | inl _ => []
                     end) manifest_files.

(** The absent required fields of a record, in the order of
    [required_fields]. *)
Definition missing_of (record : dict) : list string :=
  filter (fun field => negb (has_key field record)) required_fields.

(** What the batch returns for one file. *)
Definition outcome_of (fs : filesystem) (manifest_file : string) : dict :=
  match check_manifest fs manifest_file with
  | inr r => r
  | inl e => error_result manifest_file e
  end.

Definition has_error_key (r : dict) : bool := has_key "error" r.

(** The names in an outcome's ["missing_fields"]. *)
Definition missing_fields_of (r : dict) : list string :=
  match lookup "missing_fields" r with
  | Some (JList l) =>
      flat_map (fun x => match x with JStr s => [s] | _ => [] end) l
  | _ => []
  end.

(** The issues cell as the templates define it: the names joined by a comma,
    or ["None"] when there is none. *)
Definition issues_text (r : dict) : string :=
  str_or (join ", " (missing_fields_of r)) "None".

(** An outcome's [valid] flag, when it is a Boolean. *)
Definition valid_flag (r : dict) : option bool :=
  match lookup "valid" r with
  | Some (JBool b) => Some b
  | _ => None
  end.

(** The number of outcomes whose flag is [true]. *)
Definition flagged_valid (results : list dict) : Z :=
  Z.of_nat (List.length
              (filter (fun r => match valid_flag r with
                                | Some true => true
                                | _ => false
                                end) results)).

(** A record the dashboard can write a vulnerability row for. *)
Definition displayable (cve : json) : Prop :=
  exists row, Html.cve_row_of cve = inr row.

(** The keys of the two kinds of outcome, in insertion order. *)
Definition verified_keys : list string :=
  ["manifest_file"; "cve_id"; "severity"; "file_checksum"; "content_checksum";
   "missing_fields"; "valid"; "timestamp"; "lineage_id"].


(** The severity vocabulary the design document names. *)
Definition severity_vocabulary : list string := ["CRITICAL"; "HIGH"; "MEDIUM"; "LOW"].

End Notions.

(** ** The full run of [EchoForgeVerifier] *)

Section FullRun.

Context {R : Runtime}.






End FullRun.

(** ** The analyses of [PythonDialectProcessor] that use no data frame *)

Module PythonDialect.
Section Analyses.

Context {R : Runtime}.

(** [round(x, 2)], the built-in, taken as given. *)
Variable round2 : float -> float.

(** The dictionary [severity_mapping] of [generate_risk_matrix]. *)
Definition severity_mapping : list (string * Z) :=
  [("LOW", 1%Z); ("MEDIUM", 2%Z); ("HIGH", 3%Z); ("CRITICAL", 4%Z);
   ("UNKNOWN", 0%Z); ("ERROR", 0%Z)].

(** [severity_mapping.get(severity, 0)]: the key is hashed, which a list or a
    dictionary refuses; any other value that is not one of the keys gives the
    default. *)
Definition mapping_get (severity : json) : result Z :=
  match severity with
  | JStr s => ret (match assoc s severity_mapping with
                   | Some n => n
                   | None => 0%Z
                   end)
  | JList _ | JDict _ =>
      raise (TypeError ("unhashable type: " ++ squote (type_name severity)))
  | _ => ret 0%Z
  end.

(** The body of the loop of [generate_risk_matrix]. *)
Definition risk_score_of (r : dict) : result float :=
  let severity := dict_get r "severity" (JStr "UNKNOWN") in
  let validity_factor := if is_valid r then 1%float else 0.5%float in
  n <- mapping_get severity ;;
  ret (PrimFloat.mul (float_of_Z n) validity_factor).

(** A [numpy] array of floats: its shape and its elements in row order. *)
Record ndarray : Type := { shape : list Z; data : list float }.

(** [generate_risk_matrix(results)] *)
Definition generate_risk_matrix (results : list dict) : result ndarray :=
  match results with
  | [] => ret {| shape := [0%Z]; data := [] |}
  | _ :: _ =>
      risk_scores <- mapM risk_score_of results ;;
      ret {| shape := [len risk_scores; 1%Z]; data := risk_scores |}
  end.

(** [s.add(x)] on a set of strings kept in insertion order *)
Definition set_add (x : string) (s : list string) : list string :=
  if existsb (String.eqb x) s then s else (s ++ [x])%list.

Fixpoint assocZ (k : Z) (l : list (Z * Z)) : option Z :=
  match l with
  | [] => None
  | (k', v) :: l' => if (k' =? k)%Z then Some v else assocZ k l'
  end.

(** [d[k] += 1] if [k in d], else [d[k] = 1] *)
Fixpoint bump (k : Z) (d : list (Z * Z)) : list (Z * Z) :=
  match d with
  | [] => [(k, 1%Z)]
  | (k', v) :: d' => if (k' =? k)%Z then (k', (v + 1)%Z) :: d' else (k', v) :: bump k d'
  end.

(** The counters of [calculate_checksum_integrity] while its loop runs. *)
Record tally : Type :=
  { seen : Z; unique_checksums : list string; lengths : list (Z * Z) }.

(** The body of the loop: a truthy checksum is added to the set (it must be
    hashable) and measured with [len] (it must be sized); a string is the
    only truthy value that is both. *)
Definition tally_one (t : tally) (r : dict) : result tally :=
  let file_checksum := dict_get r "file_checksum" (JStr "") in
  if truthy file_checksum
  then match file_checksum with
       | JStr s =>
           ret {| seen := (seen t + 1)%Z;
                  unique_checksums := set_add s (unique_checksums t);
                  lengths := bump (Z.of_nat (String.length s)) (lengths t) |}
       | JList _ | JDict _ =>
           raise (TypeError ("unhashable type: " ++ squote (type_name file_checksum)))
       | _ =>
           raise (TypeError ("object of type " ++ squote (type_name file_checksum)
                               ++ " has no len()"))
       end
  else ret t.

Fixpoint tally_all (t : tally) (results : list dict) : result tally :=
  match results with
  | [] => ret t
  | r :: rest => t' <- tally_one t r ;; tally_all t' rest
  end.

(** The dictionary [checksum_analysis] as it is returned. *)
Record checksum_analysis : Type :=
  { total_files : Z;
    files_with_checksums : Z;
    checksum_length_distribution : list (Z * Z);
    potential_duplicates : list string;
    unique_checksum_count : Z;
    integrity_percentage : option float;
    analysis_lineage_id : string }.

(** [calculate_checksum_integrity(results)]: [None] stands for the dictionary
    [{"error": "No results to analyze"}]. *)
Definition calculate_checksum_integrity (results : list dict)
  : result (option checksum_analysis) :=
  match results with
  | [] => ret None
  | _ :: _ =>
      t <- tally_all {| seen := 0; unique_checksums := []; lengths := [] |} results ;;
      let total := len results in
      percentage <-
        (if (0 <? total)%Z
         then (q <- truediv (seen t) total ;;
               ret (Some (round2 (PrimFloat.mul q (float_of_Z 100)))))
         else ret None) ;;
      ret (Some {| total_files := total;
                   files_with_checksums := seen t;
                   checksum_length_distribution := lengths t;
                   potential_duplicates := [];
                   unique_checksum_count := len (unique_checksums t);
                   integrity_percentage := percentage;
                   analysis_lineage_id := LINEAGE_ID |})
  end.

End Analyses.
End PythonDialect.

(** ** More notions used in the statements *)

Section MoreNotions.

Context {R : Runtime}.


(** The file holds a record with all four required keys. *)
Definition complete (fs : filesystem) (path : string) : bool :=
  match files fs path with
  | Regular content =>
      match json_loads content with
      | inr (JDict record) => forallb (fun field => has_key field record) required_fields
      | _ => false
      end
  | _ => false
  end.

(** [json.load] accepts the file. *)
Definition loads_as_json (fs : filesystem) (path : string) : bool :=
  match json_load fs path with
  | inr _ => true
  | inl _ => false
  end.


(** The value is a string or there is none. *)
Definition str_or_absent (v : option json) : bool :=
  match v with
  | None | Some (JStr _) => true
  | _ => false
  end.



(** A record whose displayed fields are strings where they are present. *)
Definition plain_record (d : dict) : bool :=
  str_or_absent (lookup "severity" d)
  && str_or_absent (lookup "published_date" d)
  && str_or_absent (lookup "description" d).

(** The text is ASCII: its characters are its bytes, so that a slice and a
    length count the same on both. *)
Definition is_ascii (s : string) : bool :=
  forallb (fun c => Nat.ltb (nat_of_ascii c) 128) (list_ascii_of_string s).

Definition ascii_or_absent (v : option json) : bool :=
  match v with
  | Some (JStr s) => is_ascii s
  | _ => true
  end.

(** A record whose sliced fields are ASCII where they are strings. *)
Definition ascii_record (d : dict) : bool :=
  ascii_or_absent (lookup "published_date" d)
  && ascii_or_absent (lookup "description" d).

(** The records whose severity, in upper case, is [k]. *)
Definition with_severity (k : string) (cve_data : list json) : list json :=
  filter (fun cve => match Html.severity_upper cve with
                     | inr s => String.eqb s k
                     | inl _ => false
                     end) cve_data.

(** The value can be a dictionary key or a set element. *)
Definition hashable (v : json) : bool :=
  match v with
  | JList _ | JDict _ => false
  | _ => true
  end.

(** The severity an outcome is scored by. *)
Definition severity_of (r : dict) : json := dict_get r "severity" (JStr "UNKNOWN").

(** The non-empty checksums of a list of outcomes, in order, with
    repetitions. *)
Definition checksums (results : list dict) : list string :=
  flat_map (fun r => match dict_get r "file_checksum" (JStr "") with
                     | JStr s => if s =? "" then [] else [s]
                     | _ => []
                     end) results.

(** The scores [generate_risk_matrix] can give. *)
Definition risk_levels : list float :=
  [0%float; 0.5%float; 1%float; 1.5%float; 2%float; 3%float; 4%float].

(** The sum of the counts of a distribution. *)
Definition total_count (d : list (Z * Z)) : Z :=
  fold_right (fun kv acc => (snd kv + acc)%Z) 0%Z d.

End MoreNotions.

(** ** A concrete runtime and concrete inputs

    Used to run the definitions on examples. The parser knows the few texts
    of the examples and answers for them as [json.load] does; the digest is
    a stand-in that keeps the algorithm and the bytes apart. *)

Module Demo.

Definition dq : string := String "034"%char "".

Definition algo_name (a : hash_algo) : string :=
  match a with
  | MD5 => "md5" | SHA1 => "sha1" | SHA224 => "sha224" | SHA256 => "sha256"
  | SHA384 => "sha384" | SHA512 => "sha512" | BLAKE2B => "blake2b"
  | BLAKE2S => "blake2s" | SHA3_224 => "sha3_224" | SHA3_256 => "sha3_256"
  | SHA3_384 => "sha3_384" | SHA3_512 => "sha3_512"
  | SHAKE_128 => "shake_128" | SHAKE_256 => "shake_256"
  end.

(** [{"severity": "banana"}] *)
Definition banana_text : string :=
  "{" ++ dq ++ "severity" ++ dq ++ ": " ++ dq ++ "banana" ++ dq ++ "}".

Definition banana : json := JDict [("severity", JStr "banana")].

(** [{"cve_id": "CVE-2024-0001", "description": "", "severity": "CRITICAL",
      "published_date": "2024-01-15T00:00:00Z"}] *)
Definition full_text : string :=
  "{" ++ dq ++ "cve_id" ++ dq ++ ": " ++ dq ++ "CVE-2024-0001" ++ dq ++ ", "
      ++ dq ++ "description" ++ dq ++ ": " ++ dq ++ dq ++ ", "
      ++ dq ++ "severity" ++ dq ++ ": " ++ dq ++ "CRITICAL" ++ dq ++ ", "
      ++ dq ++ "published_date" ++ dq ++ ": " ++ dq ++ "2024-01-15T00:00:00Z"
      ++ dq ++ "}".

Definition full : json :=
  JDict [("cve_id", JStr "CVE-2024-0001"); ("description", JStr "");
         ("severity", JStr "CRITICAL");
         ("published_date", JStr "2024-01-15T00:00:00Z")].

(** [{"a": 1, "b": 2}] and [{"b": 2, "a": 1}] *)
Definition ab_text : string :=
  "{" ++ dq ++ "a" ++ dq ++ ": 1, " ++ dq ++ "b" ++ dq ++ ": 2}".

Definition ba_text : string :=
  "{" ++ dq ++ "b" ++ dq ++ ": 2, " ++ dq ++ "a" ++ dq ++ ": 1}".

Definition ab : dict := [("a", JInt 1); ("b", JInt 2)].
Definition ba : dict := [("b", JInt 2); ("a", JInt 1)].

Definition loads (s : string) : json_error + json :=
  if s =? "{}" then inr (JDict [])
  else if s =? ab_text then inr (JDict ab)
  else if s =? ba_text then inr (JDict ba)
  else if s =? "[]" then inr (JList [])
  else if s =? banana_text then inr banana
  else if s =? full_text then inr full
  else inl (mk_json_error "Expecting value" 1 1 0).

Definition upper_ascii (c : ascii) : ascii :=
  let n := nat_of_ascii c in
  if (97 <=? n)%nat && (n <=? 122)%nat then ascii_of_nat (n - 32) else c.

Definition lower_ascii (c : ascii) : ascii :=
  let n := nat_of_ascii c in
  if (65 <=? n)%nat && (n <=? 90)%nat then ascii_of_nat (n + 32) else c.

Fixpoint map_string (f : ascii -> ascii) (s : string) : string :=
  match s with
  | EmptyString => EmptyString
  | String c s' => String (f c) (map_string f s')
  end.

#[export] Instance runtime : Runtime :=
  {| hexdigest := fun a data => algo_name a ++ ":" ++ data;
     json_loads := loads;
     floatstr := fun _ => "0.0";
     encode_basestring_ascii := fun s => dq ++ s ++ dq;
     str_upper := map_string upper_ascii;
     str_lower := map_string lower_ascii;
     utcnow_isoformat := "2025-09-24T12:00:00.000000" |}.

(** A directory [data/cve] under [.] holding [a.json] (complete), [b.json]
    (only a severity, outside the vocabulary) and [c.json] (not JSON). *)
Definition fs3 : filesystem :=
  {| files := fun p =>
       if p =? "data/cve/a.json" then Regular full_text
       else if p =? "data/cve/b.json" then Regular banana_text
       else if p =? "data/cve/c.json" then Regular "not json"
       else Absent;
     glob_json := fun d =>
       if d =? "data/cve"
       then Some ["data/cve/a.json"; "data/cve/b.json"; "data/cve/c.json"]
       else None |}.

(** Two files holding the same record with its keys in two orders. *)
Definition fs2 : filesystem :=
  {| files := fun p =>
       if p =? "ab.json" then Regular ab_text
       else if p =? "ba.json" then Regular ba_text
       else Absent;
     glob_json := fun _ => None |}.


(** What the batch returns on [fs3]: a valid outcome, an invalid one and a
    synthesized error outcome. *)
Definition results3 : list dict :=
  fst (batch_verify_manifests fs3 (init ".") None).

(** Fifty-one copies of one outcome. *)
Definition results51 : list dict :=
  repeat (verification_result "data/cve/a.json" (JStr "CVE-2024-0001")
            (JStr "CRITICAL") "sha256:x" "sha256:y" []) 51.

End Demo.

(** Further inputs. *)
Module Demo2.

Import Demo.

(** The directory [data/cve] exists and holds no manifest. *)
Definition fs0 : filesystem :=
  {| files := fun _ => Absent;
     glob_json := fun d => if d =? "data/cve" then Some [] else None |}.

(** The files of [fs3], enumerated with the unparseable one first. *)
Definition fs3' : filesystem :=
  {| files := files fs3;
     glob_json := fun d =>
       if d =? "data/cve"
       then Some ["data/cve/c.json"; "data/cve/a.json"; "data/cve/b.json"]
       else None |}.

(** A directory holding a manifest that is JSON but no record. *)
Definition fs_list : filesystem :=
  {| files := fun p => if p =? "data/cve/l.json" then Regular "[]" else Absent;
     glob_json := fun d =>
       if d =? "data/cve" then Some ["data/cve/l.json"] else None |}.


(** The text of U+D800 alone, as the JSON string ["\ud800"] loads. *)
Definition lone_surrogate : string :=
  String (ascii_of_nat 237) (String (ascii_of_nat 160) (String (ascii_of_nat 128) "")).

(** The outcome of a manifest whose [cve_id] is that text. *)
Definition surrogate_results : list dict :=
  [verification_result "data/cve/s.json" (JStr lone_surrogate) (JStr "HIGH")
     "0123456789abcdef0123" "fedcba9876543210fedc"
     ["description"; "published_date"]].

(** A record with a description of 120 characters. *)
Definition long_record : dict :=
  [("cve_id", JStr "CVE-2024-0002"); ("severity", JStr "high");
   ("published_date", JStr "2024-02-01T10:30:00Z");
   ("description", JStr (String.concat "" (repeat "0123456789" 12)))].

End Demo2.

(** * Properties *)

(** ** The error monad *)

Lemma bind_inl {A B} (m : result A) (k : A -> result B) e :
  bind m k = inl e -> m = inl e \/ exists a, m = inr a /\ k a = inl e.
Proof.
  destruct m as [e'|a]; simpl; intros H.
  - left; congruence.
  - right; exists a; auto.
Qed.

Lemma bind_inr {A B} (m : result A) (k : A -> result B) b :
  bind m k = inr b -> exists a, m = inr a /\ k a = inr b.
Proof.
  destruct m as [e'|a]; simpl; intros H; [discriminate|eauto].
Qed.

Lemma mapM_inr {A B} (f : A -> result B) (g : A -> B) l :
  (forall a, In a l -> f a = inr (g a)) -> mapM f l = inr (map g l).
Proof.
  induction l as [|a l IH]; intros H; simpl; [reflexivity|].
  rewrite (H a (or_introl eq_refl)); simpl.
  rewrite IH by (intros; apply H; right; assumption).
  reflexivity.
Qed.

(** ** Messages are never empty *)

Lemma append_nonempty_r s c t : (s ++ String c t)%string <> "".
Proof. destruct s; simpl; discriminate. Qed.

Section Checksums.

Context {R : Runtime}.

Lemma hashlib_new_raises algorithm e :
  hashlib_new algorithm = inl e -> str_exn e <> "".
Proof.
  unfold hashlib_new.
  destruct (assoc algorithm hashlib_algorithms); [discriminate|].
  destruct (assoc algorithm hashlib_xof); [discriminate|].
  intros H; inversion H; subst; simpl; discriminate.
Qed.

Lemma hash_hexdigest_raises h e :
  hash_hexdigest h = inl e -> str_exn e <> "".
Proof.
  unfold hash_hexdigest. destruct (needs_length (algo h)); [|discriminate].
  intros H; inversion H; subst; simpl; discriminate.
Qed.

Lemma hashlib_xof_needs_length name a :
  assoc name hashlib_xof = Some a -> needs_length a = true.
Proof.
  unfold hashlib_xof. cbn [assoc].
  repeat (destruct (_ =? name); [intros [= <-]; reflexivity|]).
  discriminate.
Qed.

Lemma hashlib_algorithms_fixed name a :
  assoc name hashlib_algorithms = Some a -> needs_length a = false.
Proof.
  unfold hashlib_algorithms. cbn [assoc].
  repeat (destruct (_ =? name); [intros [= <-]; reflexivity|]).
  discriminate.
Qed.


Lemma open_file_raises fs p e : open_file fs p = inl e -> str_exn e <> "".
Proof.
  unfold open_file; destruct (files fs p); intros H; inversion H; subst;
    simpl; discriminate.
Qed.

Lemma generate_checksum_raises data algorithm e :
  generate_checksum data algorithm = inl e -> str_exn e <> "".
Proof.
  unfold generate_checksum.
  destruct (negb _).
  - intros H; inversion H; subst; simpl; discriminate.
  - intros H; apply bind_inl in H as [H|(h & _ & H)].
    + eapply hashlib_new_raises; eauto.
    + eapply hash_hexdigest_raises; eauto.
Qed.

Lemma generate_file_checksum_raises fs p algorithm e :
  generate_file_checksum fs p algorithm = inl e -> str_exn e <> "".
Proof.
  unfold generate_file_checksum.
  destruct (negb _).
  - intros H; inversion H; subst; simpl; discriminate.
  - intros H; apply bind_inl in H as [H|(h & _ & H)].
    + eapply hashlib_new_raises; eauto.
    + apply bind_inl in H as [H|(c & _ & H)].
      * eapply open_file_raises; eauto.
      * eapply hash_hexdigest_raises; eauto.
Qed.

(** The chunks read from a file make up the file. *)
Lemma substring_all s : substring 0 (String.length s) s = s.
Proof. induction s; simpl; congruence. Qed.

Lemma substring_split n s :
  (substring 0 n s ++ substring n (String.length s - n) s)%string = s.
Proof.
  revert n; induction s as [|c s IH]; intros [|n]; simpl; try reflexivity.
  - f_equal. apply substring_all.
  - f_equal. apply IH.
Qed.

Lemma substring_rest_length n s :
  String.length (substring n (String.length s - n) s) = String.length s - n.
Proof.
  revert n; induction s as [|c s IH]; intros [|n]; simpl; try reflexivity.
  - f_equal. rewrite substring_all. reflexivity.
  - apply IH.
Qed.

Lemma substring_empty n s : substring 0 n s = "" -> n = 0 \/ s = "".
Proof. destruct n, s; simpl; auto; discriminate. Qed.

Lemma string_app_nil_r (s : string) : (s ++ "")%string = s.
Proof. induction s; simpl; congruence. Qed.

Lemma string_app_assoc (s t u : string) : ((s ++ t) ++ u = s ++ t ++ u)%string.
Proof. induction s; simpl; congruence. Qed.

Lemma concat_cons c chunks :
  String.concat "" (c :: chunks) = (c ++ String.concat "" chunks)%string.
Proof.
  destruct chunks; simpl; [symmetry; apply string_app_nil_r|reflexivity].
Qed.

Lemma fold_update_fed chunks h :
  fed (fold_left update chunks h) = (fed h ++ String.concat "" chunks)%string
  /\ algo (fold_left update chunks h) = algo h.
Proof.
  revert h; induction chunks as [|c chunks IH]; intros h.
  - simpl; split; [symmetry; apply string_app_nil_r|reflexivity].
  - rewrite concat_cons. cbn [fold_left].
    destruct (IH (update h c)) as [-> ->]; simpl; split; [|reflexivity].
    apply string_app_assoc.
Qed.

Lemma read_chunks_concat fuel n s :
  0 < n -> String.length s <= fuel ->
  String.concat "" (read_chunks fuel n s) = s.
Proof.
  intros Hn; revert s; induction fuel as [|fuel IH]; intros s Hlen.
  - destruct s; [reflexivity|simpl in Hlen; lia].
  - cbn [read_chunks].
    destruct (String.eqb_spec (substring 0 n s) "") as [E|E].
    + apply substring_empty in E as [E|E]; [lia|subst; reflexivity].
    + rewrite concat_cons, IH; [apply substring_split|].
      rewrite substring_rest_length.
      destruct s; [exfalso; apply E; destruct n; reflexivity|].
      cbn [String.length] in *; lia.
Qed.

(** Reading a file in chunks of 4096 bytes digests the whole file. *)
Lemma generate_file_checksum_regular fs p content a name :
  files fs p = Regular content ->
  assoc name hashlib_algorithms = Some a ->
  generate_file_checksum fs p name = inr (hexdigest a content).
Proof.
  intros Hf Ha. unfold generate_file_checksum, path_exists, hashlib_new, open_file.
  rewrite Hf, Ha; simpl. unfold hash_hexdigest.
  destruct (fold_update_fed (read_chunks (String.length content) 4096 content)
              {| algo := a; fed := "" |}) as [-> ->]; simpl.
  rewrite (hashlib_algorithms_fixed name a Ha).
  rewrite read_chunks_concat by lia. reflexivity.
Qed.

Lemma generate_checksum_supported data name a :
  In name SUPPORTED_HASH_ALGORITHMS ->
  assoc name hashlib_algorithms = Some a ->
  generate_checksum data name = inr (hexdigest a data).
Proof.
  intros Hin Ha. unfold generate_checksum.
  assert (E : existsb (String.eqb name) SUPPORTED_HASH_ALGORITHMS = true).
  { apply existsb_exists. exists name. split; [assumption|apply String.eqb_refl]. }
  rewrite E; simpl. unfold hashlib_new. rewrite Ha. cbn [bind ret].
  unfold hash_hexdigest. cbn [algo update].
  rewrite (hashlib_algorithms_fixed name a Ha). reflexivity.
Qed.

End Checksums.

(** ** Checksum service: unsupported algorithms and missing files *)

Section ChecksumErrors.

Context {R : Runtime}.

Lemma generate_checksum_unsupported data algorithm :
  ~ In algorithm SUPPORTED_HASH_ALGORITHMS ->
  generate_checksum data algorithm
  = inl (ValueError ("Unsupported hash algorithm: " ++ algorithm)).
Proof.
  intros Hnot. unfold generate_checksum.
  destruct (existsb (String.eqb algorithm) SUPPORTED_HASH_ALGORITHMS) eqn:E;
    [|reflexivity].
  apply existsb_exists in E as (a & Hin & Ha).
  apply String.eqb_eq in Ha; subst. contradiction.
Qed.

Lemma generate_file_checksum_missing fs file_path algorithm :
  files fs file_path = Absent ->
  generate_file_checksum fs file_path algorithm
  = inl (FileNotFoundError ("File not found: " ++ file_path)).
Proof.
  intros H. unfold generate_file_checksum, path_exists. rewrite H. reflexivity.
Qed.

(** C6 (the file digest does not check the algorithm): on a file that exists,
    [generate_file_checksum] with the algorithm ["sha512"], which is outside
    [SUPPORTED_HASH_ALGORITHMS], returns the SHA-512 digest of the file, where
    [generate_checksum] raises the unsupported-algorithm [ValueError]; with a
    name [hashlib] does not have, it raises [AttributeError], not that
    [ValueError]. *)
Theorem generate_file_checksum_accepts_unsupported (content p : string) :
  let fs := {| files := fun _ => Regular content; glob_json := fun _ => None |} in
  ~ In "sha512" SUPPORTED_HASH_ALGORITHMS /\
  generate_checksum content "sha512"
  = inl (ValueError "Unsupported hash algorithm: sha512") /\
  generate_file_checksum fs p "sha512" = inr (hexdigest SHA512 content) /\
  generate_file_checksum fs p "crc32"
  = inl (AttributeError "module 'hashlib' has no attribute 'crc32'").
Proof.
  intros fs. split; [|split; [|split]].
  - simpl. intuition discriminate.
  - reflexivity.
  - apply generate_file_checksum_regular; reflexivity.
  - reflexivity.
Qed.

End ChecksumErrors.

(** ** Single-file verification *)

Section Verify.

Context {R : Runtime}.

Lemma filterM_ret {A} (g : A -> bool) (p : A -> result bool) l :
  (forall a, In a l -> p a = inr (g a)) ->
  filterM p l = inr (filter g l).
Proof.
  induction l as [|a l IH]; intros H; simpl; [reflexivity|].
  rewrite (H a (or_introl eq_refl)); simpl.
  rewrite IH by (intros; apply H; right; assumption). reflexivity.
Qed.

Lemma filterM_raises {A} (p : A -> result bool) l e :
  filterM p l = inl e -> exists a, In a l /\ p a = inl e.
Proof.
  induction l as [|a l IH]; simpl; intros H; [discriminate|].
  apply bind_inl in H as [H|(b & _ & H)]; [exists a; auto|].
  apply bind_inl in H as [H|(r & _ & H)]; [|discriminate].
  destruct (IH H) as (a' & Hin & Ha'); eauto.
Qed.

Lemma json_load_raises fs p e : json_load fs p = inl e -> str_exn e <> "".
Proof.
  unfold json_load. intros H.
  apply bind_inl in H as [H|(c & _ & H)]; [eapply open_file_raises; eauto|].
  destruct (json_loads c) as [[msg l k q|codec detail|digits|what]|v];
    inversion H; subst; simpl; try discriminate.
  apply append_nonempty_r.
Qed.

Lemma py_in_raises k v e : py_in k v = inl e -> str_exn e <> "".
Proof. destruct v; simpl; intros H; inversion H; simpl; discriminate. Qed.

Lemma py_get_raises v k d e : py_get v k d = inl e -> str_exn e <> "".
Proof. destruct v; simpl; intros H; inversion H; simpl; discriminate. Qed.

(** Whatever [verify_cve_manifest] raises has a message. *)
Lemma check_manifest_raises fs p e :
  check_manifest fs p = inl e -> str_exn e <> "".
Proof.
  unfold check_manifest. destruct (negb _).
  { intros H; inversion H; simpl; discriminate. }
  intros H.
  apply bind_inl in H as [H|(v & _ & H)]; [eapply json_load_raises; eauto|].
  apply bind_inl in H as [H|(m & _ & H)].
  { apply filterM_raises in H as (a & _ & H).
    apply bind_inl in H as [H|(b & _ & H)]; [|discriminate].
    eapply py_in_raises; eauto. }
  apply bind_inl in H as [H|(fc & _ & H)];
    [eapply generate_file_checksum_raises; eauto|].
  apply bind_inl in H as [H|(cc & _ & H)];
    [eapply generate_checksum_raises; eauto|].
  apply bind_inl in H as [H|(c & _ & H)]; [eapply py_get_raises; eauto|].
  apply bind_inl in H as [H|(sv & _ & H)]; [eapply py_get_raises; eauto|].
  discriminate.
Qed.

(** A manifest that parses to a record is verified, and this is the
    dictionary built for it. *)
Lemma check_manifest_record fs p content record :
  files fs p = Regular content ->
  json_loads content = inr (JDict record) ->
  check_manifest fs p
  = inr (verification_result p
           (dict_get record "cve_id" (JStr "UNKNOWN"))
           (dict_get record "severity" (JStr "UNKNOWN"))
           (hexdigest SHA256 content)
           (hexdigest SHA256 (json_dumps true (JDict record)))
           (missing_of record)).
Proof.
  intros Hf Hj. unfold check_manifest, path_exists, json_load, open_file.
  rewrite Hf. cbn [negb bind ret]. rewrite Hj. cbn [bind ret].
  rewrite (filterM_ret (fun field => negb (has_key field record)))
    by reflexivity.
  cbn [bind ret].
  rewrite (generate_file_checksum_regular fs p content SHA256 "sha256") by auto.
  cbn [bind ret].
  rewrite (generate_checksum_supported _ "sha256" SHA256)
    by (simpl; auto).
  reflexivity.
Qed.

(** A manifest that does not parse makes [verify_cve_manifest] raise the
    parser's error. *)
Lemma check_manifest_malformed fs p content err :
  files fs p = Regular content ->
  json_loads content = inl err ->
  check_manifest fs p
  = inl (json_error_exn err).
Proof.
  intros Hf Hj. unfold check_manifest, path_exists, json_load, open_file.
  rewrite Hf. cbn [negb bind ret]. rewrite Hj. reflexivity.
Qed.

(** A manifest that parses to anything but a record makes
    [verify_cve_manifest] raise. *)
Lemma check_manifest_not_record fs p content v :
  files fs p = Regular content ->
  json_loads content = inr v ->
  (forall d, v <> JDict d) ->
  exists e, check_manifest fs p = inl e.
Proof.
  intros Hf Hj Hv. unfold check_manifest, path_exists, json_load, open_file.
  rewrite Hf. cbn [negb bind ret]. rewrite Hj. cbn [bind ret].
  destruct (filterM _ required_fields) as [e|m]; [simpl; eauto|]. cbn [bind].
  rewrite (generate_file_checksum_regular fs p content SHA256 "sha256") by auto.
  cbn [bind ret].
  rewrite (generate_checksum_supported _ "sha256" SHA256) by (simpl; auto).
  cbn [bind].
  destruct v; simpl; eauto. exfalso; eapply Hv; reflexivity.
Qed.

End Verify.

(** ** Batch verification *)

Section Batch.

Context {R : Runtime}.

Lemma check_manifest_shape fs p r :
  check_manifest fs p = inr r ->
  exists cve_id severity fc cc missing,
    r = verification_result p cve_id severity fc cc missing.
Proof.
  unfold check_manifest. destruct (negb _); [discriminate|]. intros H.
  apply bind_inr in H as (v & _ & H).
  apply bind_inr in H as (m & _ & H).
  apply bind_inr in H as (fc & _ & H).
  apply bind_inr in H as (cc & _ & H).
  apply bind_inr in H as (c & _ & H).
  apply bind_inr in H as (sv & _ & H).
  inversion H. eauto 6.
Qed.

Lemma outcome_of_is_outcome fs f : is_outcome (outcome_of fs f).
Proof.
  unfold outcome_of. destruct (check_manifest fs f) as [e|r] eqn:E.
  - constructor.
  - apply check_manifest_shape in E as (c & sv & fc & cc & m & ->). constructor.
Qed.

Lemma outcome_of_error_key fs f :
  has_error_key (outcome_of fs f)
  = match check_manifest fs f with inl _ => true | inr _ => false end.
Proof.
  unfold outcome_of. destruct (check_manifest fs f) as [e|r] eqn:E.
  - reflexivity.
  - apply check_manifest_shape in E as (c & sv & fc & cc & m & ->). reflexivity.
Qed.

(** The loop appends one outcome per file to the list it returns and the
    outcomes of the verified files to the verifier's own list. *)
Lemma batch_loop_spec fs manifest_files : forall self results,
  batch_loop fs self manifest_files results
  = ((results ++ map (outcome_of fs) manifest_files)%list,
     {| base_path := base_path self;
        verification_results :=
          verification_results self ++ verified fs manifest_files |}).
Proof.
  induction manifest_files as [|f rest IH]; intros self results.
  - simpl. rewrite !app_nil_r. destruct self; reflexivity.
  - cbn [batch_loop map verified flat_map]. unfold verify_cve_manifest, outcome_of.
    destruct (check_manifest fs f) as [e|r]; rewrite IH; cbn [append base_path
      verification_results]; rewrite <- !app_assoc; reflexivity.
Qed.

Lemma batch_verify_manifests_spec fs self dir :
  batch_verify_manifests fs self dir
  = (map (outcome_of fs) (discovered fs self dir),
     {| base_path := base_path self;
        verification_results :=
          verification_results self ++ verified fs (discovered fs self dir) |}).
Proof.
  unfold batch_verify_manifests, discovered.
  destruct (glob_json fs _) as [manifest_files|].
  - apply batch_loop_spec.
  - simpl. rewrite app_nil_r. destruct self; reflexivity.
Qed.

Lemma verified_filter fs manifest_files :
  verified fs manifest_files
  = filter (fun r => negb (has_error_key r)) (map (outcome_of fs) manifest_files).
Proof.
  induction manifest_files as [|f rest IH]; [reflexivity|].
  cbn [verified flat_map map filter]. rewrite outcome_of_error_key.
  unfold outcome_of. fold (verified fs rest).
  destruct (check_manifest fs f); simpl; rewrite IH; reflexivity.
Qed.

Lemma batch_results_are_outcomes fs self dir :
  Forall is_outcome (fst (batch_verify_manifests fs self dir)).
Proof.
  rewrite batch_verify_manifests_spec. cbn [fst].
  apply Forall_forall. intros r Hin. apply in_map_iff in Hin as (f & <- & _).
  apply outcome_of_is_outcome.
Qed.

(** C1: [batch_verify_manifests] returns exactly one outcome per discovered
    manifest file, in order. Where [verify_cve_manifest] returns, the outcome is
    what it returned; where it raises any exception [e], the outcome is the
    synthesized error outcome: identifier and severity ["ERROR"], both checksums
    empty, [valid] false, and the message [str(e)], which is not empty. *)
Theorem batch_accounts_for_every_file fs self manifest_directory :
  let results := fst (batch_verify_manifests fs self manifest_directory) in
  let manifest_files := discovered fs self manifest_directory in
  List.length results = List.length manifest_files /\
  Forall2 (fun manifest_file r =>
             match fst (verify_cve_manifest fs self manifest_file) with
             | inr verified_result => r = verified_result
             | inl e =>
                 r = error_result manifest_file e /\
                 lookup "cve_id" r = Some (JStr "ERROR") /\
                 lookup "severity" r = Some (JStr "ERROR") /\
                 lookup "file_checksum" r = Some (JStr "") /\
                 lookup "content_checksum" r = Some (JStr "") /\
                 lookup "valid" r = Some (JBool false) /\
                 lookup "error" r = Some (JStr (str_exn e)) /\
                 str_exn e <> ""
             end) manifest_files results.
Proof.
  intros results manifest_files. subst results manifest_files.
  rewrite batch_verify_manifests_spec. cbn [fst].
  split; [apply length_map|].
  induction (discovered fs self manifest_directory) as [|f rest IH];
    constructor; [|exact IH].
  unfold verify_cve_manifest, outcome_of.
  destruct (check_manifest fs f) as [e|r] eqn:E; cbn [fst]; [|reflexivity].
  repeat split. eapply check_manifest_raises; eauto.
Qed.

Lemma reachable_no_error self :
  reachable self ->
  Forall (fun r => has_error_key r = false) (verification_results self).
Proof.
  induction 1 as [base|fs self path _ IH|fs self dir _ IH].
  - constructor.
  - unfold verify_cve_manifest.
    destruct (check_manifest fs path) as [e|r] eqn:E; cbn [snd]; [exact IH|].
    cbn [append verification_results]. apply Forall_app; split; [exact IH|].
    constructor; [|constructor].
    apply check_manifest_shape in E as (c & sv & fc & cc & m & ->). reflexivity.
  - rewrite batch_verify_manifests_spec. cbn [snd verification_results].
    apply Forall_app; split; [exact IH|].
    rewrite verified_filter. apply Forall_forall. intros r Hin.
    apply filter_In in Hin as [_ Hr]. destruct (has_error_key r); [discriminate|reflexivity].
Qed.

Lemma filter_all {A} (p : A -> bool) l :
  Forall (fun a => p a = true) l -> filter p l = l.
Proof.
  induction 1 as [|a l Ha _ IH]; simpl; [reflexivity|]. rewrite Ha, IH. reflexivity.
Qed.

(** C10: a call of [batch_verify_manifests] appends to
    [self.verification_results] exactly the outcomes of the files that
    [verify_cve_manifest] accepted, which are the returned outcomes without an
    ["error"] key; nothing is removed from the list; no synthesized error
    outcome is in it; and the returned list differs from it as soon as the list
    was not empty before the call or some file failed to verify. *)
Theorem batch_appends_only_verified fs self manifest_directory :
  reachable self ->
  let results := fst (batch_verify_manifests fs self manifest_directory) in
  let self' := snd (batch_verify_manifests fs self manifest_directory) in
  let manifest_files := discovered fs self manifest_directory in
  verification_results self'
  = (verification_results self ++ verified fs manifest_files)%list /\
  verified fs manifest_files = filter (fun r => negb (has_error_key r)) results /\
  (forall r, In r results -> has_error_key r = true ->
             ~ In r (verification_results self')) /\
  ((verification_results self <> [] \/
    exists f e, In f manifest_files /\
                fst (verify_cve_manifest fs self f) = inl e) ->
   results <> verification_results self').
Proof.
  intros Hreach results self' manifest_files.
  assert (Hinv : Forall (fun r => has_error_key r = false)
                        (verification_results self')).
  { apply reachable_no_error. constructor. exact Hreach. }
  subst results self' manifest_files.
  rewrite batch_verify_manifests_spec in *. cbn [fst snd verification_results] in *.
  set (manifest_files := discovered fs self manifest_directory) in *.
  split; [reflexivity|]. split; [apply verified_filter|]. split.
  - intros r _ Hr Hin. rewrite Forall_forall in Hinv.
    rewrite (Hinv r Hin) in Hr. discriminate.
  - intros Hor Heq. rewrite <- Heq in Hinv.
    assert (Hall : verified fs manifest_files = map (outcome_of fs) manifest_files).
    { rewrite verified_filter. apply filter_all.
      eapply Forall_impl; [|exact Hinv]. simpl. intros r ->. reflexivity. }
    destruct Hor as [Hne|(f & e & Hin & He)].
    + rewrite Hall in Heq. apply (f_equal (@List.length dict)) in Heq.
      rewrite length_app in Heq.
      destruct (verification_results self); [congruence|simpl in Heq; lia].
    + rewrite Forall_forall in Hinv.
      specialize (Hinv (outcome_of fs f) (in_map _ _ _ Hin)).
      rewrite outcome_of_error_key in Hinv.
      unfold verify_cve_manifest in He.
      destruct (check_manifest fs f); [discriminate|]. discriminate.
Qed.

End Batch.

(** ** Validation of a record *)

Section Validation.

Context {R : Runtime}.

Lemma has_key_In k (d : dict) : has_key k d = true <-> In k (keys d).
Proof.
  unfold has_key. rewrite existsb_exists. split.
  - intros (x & Hin & Hx). apply String.eqb_eq in Hx. subst. exact Hin.
  - intros Hin. exists k. split; [exact Hin|apply String.eqb_refl].
Qed.

Lemma missing_of_In record field :
  In field (missing_of record) <->
  In field required_fields /\ ~ In field (keys record).
Proof.
  unfold missing_of. rewrite filter_In, negb_true_iff, <- has_key_In.
  destruct (has_key field record); intuition congruence.
Qed.

Lemma lookup_In_keys k v (d : dict) : lookup k d = Some v -> In k (keys d).
Proof.
  induction d as [|[k' v'] d IH]; simpl; [discriminate|].
  destruct (String.eqb_spec k' k); [auto|]. intros H; right; auto.
Qed.

(** C2: for a manifest file that parses to a record, [verify_cve_manifest]
    returns an outcome whose [missing_fields] are the required fields that are
    not keys of the record, in the order of the required-field list (a field
    present with an empty string is not among them), and whose [valid] flag is
    true exactly when that list is empty. For a file that does not parse,
    [verify_cve_manifest] raises and the outcome the batch returns for the file
    has [valid] false. (A file whose JSON is not a record makes
    [verify_cve_manifest] raise as well.) *)
Theorem verify_lists_missing_fields fs self path content :
  files fs path = Regular content ->
  match json_loads content with
  | inr (JDict record) =>
      exists r missing,
        fst (verify_cve_manifest fs self path) = inr r /\
        lookup "missing_fields" r = Some (JList (map JStr missing)) /\
        missing = filter (fun field => negb (has_key field record)) required_fields /\
        (forall field, In field missing <->
                       In field required_fields /\ ~ In field (keys record)) /\
        (forall field, lookup field record = Some (JStr "") -> ~ In field missing) /\
        (exists valid, lookup "valid" r = Some (JBool valid) /\
                       (valid = true <-> missing = []))
  | inr _ => exists e, fst (verify_cve_manifest fs self path) = inl e
  | inl _ =>
      (exists e, fst (verify_cve_manifest fs self path) = inl e) /\
      forall manifest_directory,
        In path (discovered fs self manifest_directory) ->
        exists r, In r (fst (batch_verify_manifests fs self manifest_directory)) /\
                  lookup "manifest_file" r = Some (JStr path) /\
                  lookup "valid" r = Some (JBool false)
  end.
Proof.
  intros Hf. destruct (json_loads content) as [err|v] eqn:Hj.
  - pose proof (check_manifest_malformed fs path content err Hf Hj) as Hc.
    split.
    + unfold verify_cve_manifest. rewrite Hc. cbn [fst]. eauto.
    + intros dir Hin. exists (outcome_of fs path). split.
      * rewrite batch_verify_manifests_spec. cbn [fst]. apply in_map. exact Hin.
      * unfold outcome_of. rewrite Hc. split; reflexivity.
  - destruct v as [| | | | | |record];
      try (destruct (check_manifest_not_record fs path content _ Hf Hj) as (e & He);
           [discriminate
           |unfold verify_cve_manifest; rewrite He; cbn [fst]; eauto]).
    pose proof (check_manifest_record fs path content record Hf Hj) as Hc.
    eexists; exists (missing_of record).
    split; [unfold verify_cve_manifest; rewrite Hc; reflexivity|].
    split; [reflexivity|]. split; [reflexivity|].
    split; [apply missing_of_In|]. split.
    + intros field Hl Hin. apply missing_of_In in Hin as [_ Hin].
      apply Hin. eapply lookup_In_keys; eauto.
    + eexists; split; [reflexivity|].
      destruct (missing_of record); simpl; split; congruence.
Qed.

(** C8, as the code has it: for a manifest file that parses to a record, the
    outcome's [severity] is the record's ["severity"] value unchanged, whatever
    it is, and ["UNKNOWN"] only when the record has no such key; so a value of
    the vocabulary is kept as it is. *)
Theorem severity_is_passed_through fs self path content record :
  files fs path = Regular content ->
  json_loads content = inr (JDict record) ->
  exists r,
    fst (verify_cve_manifest fs self path) = inr r /\
    lookup "severity" r
    = Some (match lookup "severity" record with
            | Some v => v
            | None => JStr "UNKNOWN"
            end) /\
    (forall s, In s severity_vocabulary ->
               lookup "severity" record = Some (JStr s) ->
               lookup "severity" r = Some (JStr s)).
Proof.
  intros Hf Hj.
  pose proof (check_manifest_record fs path content record Hf Hj) as Hc.
  eexists. split; [unfold verify_cve_manifest; rewrite Hc; reflexivity|].
  split; [reflexivity|].
  intros s _ Hs. cbn. unfold dict_get. rewrite Hs. reflexivity.
Qed.

End Validation.

(** ** Canonical serialization *)

Lemma compare_not_Gt_trans (a : string) : forall b c,
  String.compare a b <> Gt -> String.compare b c <> Gt -> String.compare a c <> Gt.
Proof.
  induction a as [|x a IH]; intros [|y b] [|z c]; simpl; try congruence.
  unfold Ascii.compare.
  destruct (N.compare_spec (N_of_ascii x) (N_of_ascii y)) as [Exy|Lxy|Gxy];
    destruct (N.compare_spec (N_of_ascii y) (N_of_ascii z)) as [Eyz|Lyz|Gyz];
    destruct (N.compare_spec (N_of_ascii x) (N_of_ascii z)) as [Exz|Lxz|Gxz];
    try congruence; try lia.
  apply IH.
Qed.

Lemma leb_trans a b c :
  String.leb a b = true -> String.leb b c = true -> String.leb a c = true.
Proof.
  unfold String.leb. intros Hab Hbc.
  pose proof (compare_not_Gt_trans a b c) as H.
  destruct (String.compare a b), (String.compare b c), (String.compare a c);
    try discriminate; try reflexivity; exfalso; apply H; congruence.
Qed.

Section SortItems.

Variable V : Type.

Lemma insert_item_perm (kv : string * V) l : Permutation (insert_item kv l) (kv :: l).
Proof.
  induction l as [|kv' l IH]; simpl; [reflexivity|].
  destruct (String.leb (fst kv) (fst kv')); [reflexivity|].
  rewrite IH. apply perm_swap.
Qed.

Lemma sort_items_perm (l : list (string * V)) : Permutation (sort_items l) l.
Proof.
  induction l as [|kv l IH]; simpl; [reflexivity|].
  rewrite insert_item_perm. constructor. exact IH.
Qed.

Lemma insert_item_sorted (kv : string * V) l :
  StronglySorted key_le l -> StronglySorted key_le (insert_item kv l).
Proof.
  induction 1 as [|kv' l Hs IH Hall]; simpl.
  - constructor; constructor.
  - destruct (String.leb (fst kv) (fst kv')) eqn:E.
    + constructor; [constructor; assumption|].
      constructor; [exact E|].
      eapply Forall_impl; [|exact Hall]. intros x Hx.
      unfold key_le in *. eapply leb_trans; eauto.
    + constructor; [exact IH|].
      eapply Permutation_Forall; [symmetry; apply insert_item_perm|].
      constructor; [|exact Hall].
      unfold key_le. destruct (String.leb_total (fst kv) (fst kv')); congruence.
Qed.

Lemma sort_items_sorted (l : list (string * V)) : StronglySorted key_le (sort_items l).
Proof.
  induction l; simpl; [constructor|apply insert_item_sorted; assumption].
Qed.

(** Two sorted lists with the same items and distinct keys are equal. *)
Lemma sorted_perm_unique (l1 : list (string * V)) : forall l2,
  StronglySorted key_le l1 -> StronglySorted key_le l2 ->
  Permutation l1 l2 -> NoDup (map fst l1) -> l1 = l2.
Proof.
  induction l1 as [|a l1 IH]; intros l2 S1 S2 P N.
  - apply Permutation_nil in P. congruence.
  - destruct l2 as [|b l2]; [symmetry in P; apply Permutation_nil in P; discriminate|].
    inversion S1 as [|? ? S1' H1]; inversion S2 as [|? ? S2' H2]; subst.
    inversion N as [|? ? Na N']; subst.
    assert (Hab : a = b).
    { assert (Ha : In a (b :: l2)) by (eapply Permutation_in; [exact P|left; reflexivity]).
      assert (Hb : In b (a :: l1))
        by (eapply Permutation_in; [symmetry; exact P|left; reflexivity]).
      destruct Ha as [Ha|Ha]; [congruence|].
      destruct Hb as [Hb|Hb]; [congruence|].
      rewrite Forall_forall in H1, H2.
      assert (Hk : fst a = fst b)
        by (apply String.leb_antisym; [apply H1|apply H2]; assumption).
      exfalso. apply Na. rewrite Hk. apply in_map. exact Hb. }
    subst b. f_equal. apply IH; auto.
    eapply Permutation_cons_inv; eauto.
Qed.

Lemma sort_items_unique (l1 l2 : list (string * V)) :
  Permutation l1 l2 -> NoDup (map fst l1) -> sort_items l1 = sort_items l2.
Proof.
  intros P N. apply sorted_perm_unique; try apply sort_items_sorted.
  - rewrite !sort_items_perm. exact P.
  - eapply Permutation_NoDup; [|exact N].
    apply Permutation_map. symmetry. apply sort_items_perm.
Qed.

End SortItems.

(** Induction on a value, with the hypothesis for every element of a list and
    every value of a dictionary. *)
Section JsonInduction.

Variable P : json -> Prop.
Hypothesis Hnull : P JNull.
Hypothesis Hbool : forall b, P (JBool b).
Hypothesis Hint : forall z, P (JInt z).
Hypothesis Hfloat : forall f, P (JFloat f).
Hypothesis Hstr : forall s, P (JStr s).
Hypothesis Hlist : forall l, Forall P l -> P (JList l).
Hypothesis Hdict : forall d, Forall (fun kv => P (snd kv)) d -> P (JDict d).

Lemma json_ind : forall v, P v.
Proof.
  fix IH 1. intros [|b|z|f|s|l|d].
  - exact Hnull.
  - exact (Hbool b).
  - exact (Hint z).
  - exact (Hfloat f).
  - exact (Hstr s).
  - apply Hlist. induction l; constructor; [apply IH|assumption].
  - apply Hdict. induction d; constructor; [apply IH|assumption].
Qed.

End JsonInduction.

Section Canonical.

Context {R : Runtime}.

Lemma json_equiv_inv_list l1 v2 :
  json_equiv (JList l1) v2 -> exists l2, v2 = JList l2 /\ Forall2 json_equiv l1 l2.
Proof.
  intros H. refine (match H in json_equiv a b
                    return a = JList l1 -> exists l2, b = JList l2 /\ Forall2 json_equiv l1 l2
                    with equiv_list _ _ F => _ | _ => _ end eq_refl);
    try discriminate.
  intros E; inversion E; subst. eauto.
Qed.

Lemma json_equiv_inv_dict d1 v2 :
  json_equiv (JDict d1) v2 ->
  exists d2 d2', v2 = JDict d2 /\
    Forall2 (fun kv1 kv2 => fst kv1 = fst kv2 /\ json_equiv (snd kv1) (snd kv2)) d1 d2' /\
    Permutation d2' d2.
Proof.
  intros H. refine (match H in json_equiv a b
                    return a = JDict d1 -> exists d2 d2', b = JDict d2 /\
                      Forall2 (fun kv1 kv2 => fst kv1 = fst kv2
                                              /\ json_equiv (snd kv1) (snd kv2)) d1 d2' /\
                      Permutation d2' d2
                    with equiv_dict _ _ _ F Q => _ | _ => _ end eq_refl);
    try discriminate.
  intros E; inversion E; subst. eauto.
Qed.

Lemma json_equiv_inv_scalar v1 v2 :
  json_equiv v1 v2 ->
  match v1 with
  | JList _ | JDict _ => True
  | _ => v2 = v1
  end.
Proof. intros H. destruct H; auto. Qed.

Lemma distinct_keys_inv v :
  distinct_keys v ->
  match v with
  | JList l => Forall distinct_keys l
  | JDict d => NoDup (keys d) /\ Forall (fun kv => distinct_keys (snd kv)) d
  | _ => True
  end.
Proof. intros H. destruct H; auto. Qed.

(** With [sort_keys] the text written does not depend on the order of the
    items of any dictionary in the value. *)
Lemma json_dumps_sorted_equiv v1 : forall v2,
  json_equiv v1 v2 -> distinct_keys v1 ->
  json_dumps true v1 = json_dumps true v2.
Proof.
  induction v1 as [| | | | |l1 IH|d1 IH] using json_ind; intros v2 He Hd;
    try (apply json_equiv_inv_scalar in He; subst; reflexivity).
  - apply json_equiv_inv_list in He as (l2 & -> & F).
    apply distinct_keys_inv in Hd. cbn [json_dumps]. do 3 f_equal.
    induction F as [|x y l1 l2 Hxy F IHF]; [reflexivity|].
    inversion IH; inversion Hd; subst. cbn [map]. f_equal; auto.
  - apply json_equiv_inv_dict in He as (d2 & d2' & -> & F & Pm).
    apply distinct_keys_inv in Hd as [Nd Hd]. cbn [json_dumps]. do 4 f_equal.
    set (enc := fun kv : string * json => (fst kv, json_dumps true (snd kv))).
    assert (E : map enc d1 = map enc d2').
    { clear Pm Nd. induction F as [|x y d1 d2' [Hk Hv] F IHF]; [reflexivity|].
      inversion IH; inversion Hd; subst. cbn [map]. f_equal; auto.
      unfold enc. f_equal; auto. }
    rewrite E. apply sort_items_unique.
    + apply Permutation_map. exact Pm.
    + rewrite <- E. rewrite map_map. exact Nd.
Qed.

End Canonical.

Section ContentChecksum.

Context {R : Runtime}.

(** C5: two manifest files that parse to the same record up to the order of
    its keys (at any depth) get the same content checksum: the checksum is the
    SHA-256 digest of [json.dumps(record, sort_keys=True)], and that text does
    not depend on the order of the keys. *)
Theorem content_checksum_ignores_key_order
    fs self path1 path2 content1 content2 record1 record2 :
  files fs path1 = Regular content1 ->
  files fs path2 = Regular content2 ->
  json_loads content1 = inr (JDict record1) ->
  json_loads content2 = inr (JDict record2) ->
  distinct_keys (JDict record1) ->
  json_equiv (JDict record1) (JDict record2) ->
  exists r1 r2,
    fst (verify_cve_manifest fs self path1) = inr r1 /\
    fst (verify_cve_manifest fs self path2) = inr r2 /\
    lookup "content_checksum" r1
    = Some (JStr (hexdigest SHA256 (json_dumps true (JDict record1)))) /\
    json_dumps true (JDict record1) = json_dumps true (JDict record2) /\
    lookup "content_checksum" r1 = lookup "content_checksum" r2.
Proof.
  intros Hf1 Hf2 Hj1 Hj2 Hd He.
  pose proof (check_manifest_record fs path1 content1 record1 Hf1 Hj1) as H1.
  pose proof (check_manifest_record fs path2 content2 record2 Hf2 Hj2) as H2.
  pose proof (json_dumps_sorted_equiv _ _ He Hd) as Hs.
  do 2 eexists. unfold verify_cve_manifest. rewrite H1, H2. cbn [fst].
  split; [reflexivity|]. split; [reflexivity|]. split; [reflexivity|].
  split; [exact Hs|].
  cbn [lookup verification_result String.eqb Ascii.eqb Bool.eqb].
  rewrite Hs. reflexivity.
Qed.

End ContentChecksum.

(** ** Rendering *)

Lemma mapM_Forall2 {A B} (f : A -> result B) (Q : A -> B -> Prop) l :
  Forall (fun a => exists b, f a = inr b /\ Q a b) l ->
  exists bs, mapM f l = inr bs /\ Forall2 Q l bs.
Proof.
  induction 1 as [|a l (b & Hb & Hq) _ (bs & Hbs & HQ)]; simpl.
  - exists []. split; [reflexivity|constructor].
  - exists (b :: bs). rewrite Hb; simpl. rewrite Hbs; simpl.
    split; [reflexivity|constructor; assumption].
Qed.

Lemma Forall_firstn {A} (P : A -> Prop) n l : Forall P l -> Forall P (firstn n l).
Proof.
  intros H; revert n; induction H; intros [|n]; simpl; constructor; auto.
Qed.

Section Rows.

Context {R : Runtime}.

Lemma py_join_strs sep l : py_join sep (JList (map JStr l)) = inr (join sep l).
Proof.
  unfold py_join.
  rewrite (mapM_inr _ (fun x => match x with JStr s => s | _ => "" end)).
  - rewrite map_map, map_id. reflexivity.
  - intros a Hin. apply in_map_iff in Hin as (s & <- & _). reflexivity.
Qed.

Lemma flat_map_strs l :
  flat_map (fun x => match x with JStr s => [s] | _ => [] end) (map JStr l) = l.
Proof. induction l; simpl; congruence. Qed.

Lemma issues_of_outcome r : is_outcome r -> issues_of r = inr (issues_text r).
Proof.
  intros [ts path c sv fc cc missing|ts path e]; unfold issues_of, issues_text, missing_fields_of.
  - change (dict_get _ "missing_fields" _) with (JList (map JStr missing)).
    change (lookup "missing_fields" _) with (Some (JList (map JStr missing))).
    rewrite py_join_strs, flat_map_strs. reflexivity.
  - reflexivity.
Qed.


Lemma checksum_short_of_outcome r :
  is_outcome r -> exists c, checksum_short_of r = inr c.
Proof.
  intros [ts path c sv fc cc missing|ts path e]; unfold checksum_short_of.
  - change (dict_get _ "file_checksum" JNull) with (JStr fc).
    change (dict_get _ "file_checksum" (JStr "")) with (JStr fc).
    destruct (truthy (JStr fc)); eauto.
  - eexists; reflexivity.
Qed.

Lemma valid_flag_outcome r : is_outcome r -> exists b, valid_flag r = Some b.
Proof. intros [ts path c sv fc cc missing|ts path e]; eexists; reflexivity. Qed.

Lemma is_valid_flag r b : valid_flag r = Some b -> is_valid r = b.
Proof.
  unfold valid_flag, is_valid, dict_get.
  destruct (lookup "valid" r) as [[]|]; try discriminate. intros [= ->]. reflexivity.
Qed.

Lemma count_valid_flagged results :
  Forall (fun r => exists b, valid_flag r = Some b) results ->
  count_valid results = flagged_valid results.
Proof.
  unfold count_valid, flagged_valid. intros H. do 2 f_equal.
  induction H as [|r results (b & Hb) _ IH]; [reflexivity|].
  simpl. rewrite (is_valid_flag r b Hb), Hb, IH. destruct b; reflexivity.
Qed.

Lemma count_valid_outcomes results :
  Forall is_outcome results -> count_valid results = flagged_valid results.
Proof.
  intros H. apply count_valid_flagged.
  eapply Forall_impl; [|exact H]. apply valid_flag_outcome.
Qed.

Lemma markdown_row_of_outcome r :
  is_outcome r ->
  exists row, markdown_row_of r = inr row /\ md_issues row = issues_text r.
Proof.
  intros H. unfold markdown_row_of.
  rewrite (issues_of_outcome r H); cbn [bind].
  destruct (checksum_short_of_outcome r H) as (c & ->); cbn [bind].
  eexists; split; reflexivity.
Qed.

Lemma html_row_of_outcome r :
  is_outcome r ->
  exists row, html_row_of r = inr row /\ html_issues row = issues_text r.
Proof.
  intros H. unfold html_row_of.
  rewrite (issues_of_outcome r H); cbn [bind].
  destruct (checksum_short_of_outcome r H) as (c & ->); cbn [bind].
  eexists; split; reflexivity.
Qed.

Lemma verification_row_of_outcome r :
  is_outcome r ->
  exists row, Html.verification_row_of r = inr row /\
              Html.vr_issues row = issues_text r /\
              Html.vr_status_text row = status_text_of r.
Proof.
  intros H. unfold Html.verification_row_of.
  destruct (checksum_short_of_outcome r H) as (c & ->); cbn [bind].
  rewrite (issues_of_outcome r H); cbn [bind].
  assert (Ht : exists t, (if truthy (dict_get r "timestamp" JNull)
                          then Html.py_slice_to 16 (dict_get r "timestamp" (JStr ""))
                          else ret (JStr "Unknown")) = inr t).
  { destruct H as [ts ? ? ? ? ? ?|ts ? ?];
      change (dict_get _ "timestamp" JNull) with (JStr ts);
      change (dict_get _ "timestamp" (JStr "")) with (JStr ts);
      destruct (truthy _); eexists; reflexivity. }
  destruct Ht as (t & ->); cbn [bind].
  eexists; split; [reflexivity|]. split; reflexivity.
Qed.

Lemma percentage_defined valid_count total :
  total <> 0%Z ->
  percentage valid_count total
  = inr (PrimFloat.mul (PrimFloat.div (float_of_Z valid_count) (float_of_Z total))
                       (float_of_Z 100)).
Proof.
  intros H. unfold percentage, truediv.
  destruct (Z.eqb_spec total 0); [contradiction|reflexivity].
Qed.

Lemma len_nonempty {A} (l : list A) : l <> [] -> len l <> 0%Z.
Proof. destruct l; [congruence|]. unfold len; simpl; lia. Qed.

(** On a list of outcomes the HTML report is always written. *)
Lemma generate_html_report_outcomes results :
  Forall is_outcome results ->
  exists doc,
    generate_html_report results = inr doc /\
    html_total doc = len results /\
    html_valid doc = flagged_valid results /\
    html_invalid doc = (len results - flagged_valid results)%Z /\
    success_rate_of (flagged_valid results) results = inr (html_success_rate doc) /\
    Forall2 (fun r row => html_row_of r = inr row /\ html_issues row = issues_text r)
            results (html_rows doc).
Proof.
  intros H. unfold generate_html_report.
  rewrite (count_valid_outcomes results H).
  assert (Hs : exists s, success_rate_of (flagged_valid results) results = inr s).
  { unfold success_rate_of. destruct results as [|r rs]; [eexists; reflexivity|].
    rewrite percentage_defined by (apply len_nonempty; discriminate).
    eexists; reflexivity. }
  destruct Hs as (s & Hs). rewrite Hs; cbn [bind].
  destruct (mapM_Forall2 html_row_of
              (fun r row => html_row_of r = inr row /\ html_issues row = issues_text r)
              results) as (rows & Hrows & HF).
  { eapply Forall_impl; [|exact H]. intros r Hr.
    destruct (html_row_of_outcome r Hr) as (row & Hrow & Hi). eauto. }
  rewrite Hrows; cbn [bind]. eexists; split; [reflexivity|]. cbn. auto 6.
Qed.

(** On a non-empty list of outcomes the Markdown report is written. *)
Lemma generate_markdown_report_outcomes results :
  Forall is_outcome results -> results <> [] ->
  exists doc,
    generate_markdown_report results = inr doc /\
    md_total doc = len results /\
    md_valid doc = flagged_valid results /\
    md_invalid doc = (len results - flagged_valid results)%Z /\
    percentage (flagged_valid results) (len results) = inr (md_success_rate doc) /\
    Forall2 (fun r row => markdown_row_of r = inr row /\ md_issues row = issues_text r)
            results (md_rows doc).
Proof.
  intros H Hne. unfold generate_markdown_report.
  rewrite (count_valid_outcomes results H).
  rewrite percentage_defined by (apply len_nonempty; assumption). cbn [bind].
  destruct (mapM_Forall2 markdown_row_of
              (fun r row => markdown_row_of r = inr row /\ md_issues row = issues_text r)
              results) as (rows & Hrows & HF).
  { eapply Forall_impl; [|exact H]. intros r Hr.
    destruct (markdown_row_of_outcome r Hr) as (row & Hrow & Hi). eauto. }
  rewrite Hrows; cbn [bind]. eexists; split; [reflexivity|]. cbn. auto 6.
Qed.

End Rows.

Section Reports.

Context {R : Runtime}.

(** C3 (the Markdown report on an empty list): where the HTML report writes a
    success rate of [0] for an empty outcome list, [generate_markdown_report]
    raises [ZeroDivisionError]: its template evaluates
    [valid_count/len(results)*100] before anything can test [results]. *)
Theorem markdown_report_divides_by_zero :
  generate_markdown_report [] = inl (ZeroDivisionError "division by zero") /\
  exists doc, generate_html_report [] = inr doc /\
              html_success_rate doc = JInt 0 /\
              html_total doc = 0%Z.
Proof.
  split; [reflexivity|]. eexists. split; [reflexivity|]. split; reflexivity.
Qed.

(** On a non-empty list of outcomes both reports write the same number,
    [valid_count/len(results)*100] over the whole list. *)
Lemma success_rate_agrees results :
  Forall is_outcome results -> results <> [] ->
  exists md html,
    generate_markdown_report results = inr md /\
    generate_html_report results = inr html /\
    html_success_rate html = JFloat (md_success_rate md) /\
    percentage (flagged_valid results) (len results) = inr (md_success_rate md).
Proof.
  intros H Hne.
  destruct (generate_markdown_report_outcomes results H Hne)
    as (md & Hmd & _ & _ & _ & Hp & _).
  destruct (generate_html_report_outcomes results H)
    as (html & Hhtml & _ & _ & _ & Hs & _).
  exists md, html. repeat split; try assumption.
  unfold success_rate_of in Hs.
  destruct results as [|r rs]; [exfalso; apply Hne; reflexivity|].
  rewrite Hp in Hs. cbn [bind] in Hs. unfold ret in Hs. congruence.
Qed.







End Reports.

(** ** The dashboard *)

Section DashboardProperties.

Context {R : Runtime}.


Lemma displayable_severity cve :
  displayable cve -> exists s, Html.severity_upper cve = inr s.
Proof.
  intros (row & H). unfold Html.cve_row_of in H.
  apply bind_inr in H as (c & _ & H).
  apply bind_inr in H as (s & Hs & _). eauto.
Qed.

Lemma count_severities_defined cve_data : forall counts,
  Forall displayable cve_data ->
  exists counts', Html.count_severities cve_data counts = inr counts'.
Proof.
  induction cve_data as [|cve rest IH]; intros counts H; simpl; [eauto|].
  inversion H as [|? ? Hc Hrest]; subst.
  destruct (displayable_severity cve Hc) as (s & ->); cbn [bind]. apply IH. exact Hrest.
Qed.

Lemma dashboard_success_rate_defined valid_count total :
  exists s, Html.dashboard_success_rate valid_count total = inr s.
Proof.
  unfold Html.dashboard_success_rate. destruct (Z.ltb_spec 0 total); [|eauto].
  rewrite percentage_defined by lia. eexists; reflexivity.
Qed.

(** The dashboard is written whenever its two inputs can be written as rows;
    its counts come from the whole verification list and its rows from the
    first fifty entries of each input. *)
Lemma generate_dashboard_html_rows cve_data results
    (Q : dict -> Html.verification_row -> Prop) :
  Forall displayable cve_data ->
  Forall (fun r => exists row, Html.verification_row_of r = inr row /\ Q r row)
         results ->
  exists doc,
    Html.generate_dashboard_html cve_data results = inr doc /\
    Html.db_total_cves doc = len cve_data /\
    Html.db_total_verifications doc = len results /\
    Html.db_valid_verifications doc = count_valid results /\
    Html.dashboard_success_rate (count_valid results) (len results)
    = inr (Html.db_success_rate doc) /\
    Forall2 (fun cve row => Html.cve_row_of cve = inr row)
            (firstn 50 cve_data) (Html.db_cve_rows doc) /\
    Forall2 (fun r row => Html.verification_row_of r = inr row /\ Q r row)
            (firstn 50 results) (Html.db_verification_rows doc).
Proof.
  intros Hc Hr. unfold Html.generate_dashboard_html.
  destruct (count_severities_defined cve_data [] Hc) as (counts & ->); cbn [bind].
  destruct (dashboard_success_rate_defined (count_valid results) (len results))
    as (s & Hs). rewrite Hs; cbn [bind].
  destruct (mapM_Forall2 Html.cve_row_of
              (fun cve row => Html.cve_row_of cve = inr row) (firstn 50 cve_data))
    as (cve_rows & -> & HFc).
  { apply Forall_firstn. eapply Forall_impl; [|exact Hc].
    intros cve (row & Hrow). eauto. }
  cbn [bind].
  destruct (mapM_Forall2 Html.verification_row_of
              (fun r row => Html.verification_row_of r = inr row /\ Q r row)
              (firstn 50 results))
    as (rows & -> & HFr).
  { apply Forall_firstn. eapply Forall_impl; [|exact Hr].
    intros r (row & Hrow & Hq). eauto. }
  cbn [bind]. eexists; split; [reflexivity|]. cbn. auto 8.
Qed.

Lemma Forall2_length_firstn {A B} (Q : A -> B -> Prop) n l rows :
  Forall2 Q (firstn n l) rows -> List.length rows = Nat.min n (List.length l).
Proof.
  intros H. apply Forall2_length in H. rewrite length_firstn in H. congruence.
Qed.

(** C7, as the code has it: the cap of fifty rows is in the dashboard only.
    On a list of outcomes the Markdown and HTML reports write one detail row for
    every outcome, however many; the dashboard writes rows for the first fifty
    verification outcomes (and the first fifty records) only. In all three the
    counts and the success rate are those of the whole list. *)
Theorem only_dashboard_caps_rows cve_data results :
  Forall is_outcome results ->
  Forall displayable cve_data ->
  (exists doc,
      generate_html_report results = inr doc /\
      List.length (html_rows doc) = List.length results /\
      html_total doc = len results /\
      html_valid doc = flagged_valid results /\
      success_rate_of (flagged_valid results) results = inr (html_success_rate doc)) /\
  (results <> [] ->
   exists doc,
      generate_markdown_report results = inr doc /\
      List.length (md_rows doc) = List.length results /\
      md_total doc = len results /\
      md_valid doc = flagged_valid results /\
      percentage (flagged_valid results) (len results) = inr (md_success_rate doc)) /\
  (exists doc,
      Html.generate_dashboard_html cve_data results = inr doc /\
      Forall2 (fun r row => Html.verification_row_of r = inr row)
              (firstn 50 results) (Html.db_verification_rows doc) /\
      List.length (Html.db_verification_rows doc) = Nat.min 50 (List.length results) /\
      List.length (Html.db_cve_rows doc) = Nat.min 50 (List.length cve_data) /\
      Html.db_total_verifications doc = len results /\
      Html.db_valid_verifications doc = flagged_valid results /\
      Html.dashboard_success_rate (flagged_valid results) (len results)
      = inr (Html.db_success_rate doc)).
Proof.
  intros H Hc. split; [|split].
  - destruct (generate_html_report_outcomes results H)
      as (doc & Hdoc & Ht & Hv & _ & Hs & HF).
    exists doc. repeat split; try assumption.
    symmetry. eapply Forall2_length; eauto.
  - intros Hne.
    destruct (generate_markdown_report_outcomes results H Hne)
      as (doc & Hdoc & Ht & Hv & _ & Hs & HF).
    exists doc. repeat split; try assumption.
    symmetry. eapply Forall2_length; eauto.
  - destruct (generate_dashboard_html_rows cve_data results (fun _ _ => True) Hc)
      as (doc & Hdoc & _ & Ht & Hv & Hs & HFc & HFr).
    { eapply Forall_impl; [|exact H]. intros r Hr.
      destruct (verification_row_of_outcome r Hr) as (row & Hrow & _). eauto. }
    rewrite (count_valid_outcomes results H) in Hv, Hs.
    exists doc. repeat split; try assumption.
    + eapply Forall2_impl; [|exact HFr]. simpl. intros r row [Hr _]. exact Hr.
    + eapply Forall2_length_firstn; eauto.
    + eapply Forall2_length_firstn; eauto.
Qed.







End DashboardProperties.

(** * The properties on the concrete inputs *)

Import Demo.


(** C7, as stated, fails on a list of fifty-one outcomes: the Markdown and HTML
    reports write fifty-one detail rows. *)
Lemma reports_write_more_than_fifty_rows :
  (exists doc, generate_markdown_report Demo.results51 = inr doc /\
               ~ (List.length (md_rows doc) <= 50)) /\
  (exists doc, generate_html_report Demo.results51 = inr doc /\
               ~ (List.length (html_rows doc) <= 50)).
Proof.
  split; (eexists; split; [vm_compute; reflexivity|cbn; lia]).
Qed.

(** C8, as stated, fails on the manifest [{"severity": "banana"}]: the value is
    outside the vocabulary and the outcome carries it, not ["UNKNOWN"]. *)
Lemma unrecognized_severity_is_kept :
  ~ In "banana" severity_vocabulary /\
  exists r,
    fst (verify_cve_manifest Demo.fs3 (init ".") "data/cve/b.json") = inr r /\
    lookup "severity" r = Some (JStr "banana") /\
    lookup "severity" r <> Some (JStr "UNKNOWN").
Proof.
  split; [simpl; intuition discriminate|].
  eexists. split; [vm_compute; reflexivity|]. split; [reflexivity|discriminate].
Qed.


(** The manifest [b.json] of [fs3] misses three of the four required fields. *)
Lemma verify_lists_missing_fields_witness :
  files Demo.fs3 "data/cve/b.json" = Regular Demo.banana_text /\
  exists r missing,
    fst (verify_cve_manifest Demo.fs3 (init ".") "data/cve/b.json") = inr r /\
    lookup "missing_fields" r = Some (JList (map JStr missing)) /\
    missing = ["cve_id"; "description"; "published_date"] /\
    lookup "valid" r = Some (JBool false).
Proof.
  split; [reflexivity|].
  destruct (verify_lists_missing_fields Demo.fs3 (init ".") "data/cve/b.json"
              Demo.banana_text eq_refl)
    as (r & missing & Hr & Hm & He & _ & _ & (valid & Hv & Hiff)).
  exists r, missing. split; [exact Hr|]. split; [exact Hm|]. split; [exact He|].
  rewrite Hv. destruct valid; [|reflexivity].
  destruct Hiff as [Hiff _]. rewrite He in Hiff.
  specialize (Hiff eq_refl). discriminate Hiff.
Defined.

(** The records [{"a": 1, "b": 2}] and [{"b": 2, "a": 1}] of [fs2] get the
    same content checksum. *)
Lemma content_checksum_ignores_key_order_witness :
  distinct_keys (JDict Demo.ab) /\
  json_equiv (JDict Demo.ab) (JDict Demo.ba) /\
  exists r1 r2,
    fst (verify_cve_manifest Demo.fs2 (init ".") "ab.json") = inr r1 /\
    fst (verify_cve_manifest Demo.fs2 (init ".") "ba.json") = inr r2 /\
    lookup "content_checksum" r1 = lookup "content_checksum" r2.
Proof.
  assert (Hd : distinct_keys (JDict Demo.ab)).
  { constructor.
    - repeat constructor; simpl; intuition discriminate.
    - repeat constructor. }
  assert (He : json_equiv (JDict Demo.ab) (JDict Demo.ba)).
  { apply equiv_dict with (d2' := Demo.ab).
    - repeat constructor.
    - apply perm_swap. }
  split; [exact Hd|]. split; [exact He|].
  assert (Hj1 : json_loads Demo.ab_text = inr (JDict Demo.ab)) by reflexivity.
  assert (Hj2 : json_loads Demo.ba_text = inr (JDict Demo.ba)) by reflexivity.
  destruct (content_checksum_ignores_key_order Demo.fs2 (init ".")
              "ab.json" "ba.json" Demo.ab_text Demo.ba_text Demo.ab Demo.ba
              eq_refl eq_refl Hj1 Hj2 Hd He)
    as (r1 & r2 & H1 & H2 & _ & _ & Hc).
  exists r1, r2. auto.
Defined.

(** The manifest [a.json] of [fs3] supplies [CRITICAL] and keeps it. *)
Lemma severity_is_passed_through_witness :
  files Demo.fs3 "data/cve/a.json" = Regular Demo.full_text /\
  json_loads Demo.full_text = inr Demo.full /\
  exists r,
    fst (verify_cve_manifest Demo.fs3 (init ".") "data/cve/a.json") = inr r /\
    lookup "severity" r = Some (JStr "CRITICAL").
Proof.
  assert (Hj : json_loads Demo.full_text = inr Demo.full) by reflexivity.
  split; [reflexivity|]. split; [exact Hj|].
  destruct (severity_is_passed_through Demo.fs3 (init ".") "data/cve/a.json"
              Demo.full_text _ eq_refl Hj)
    as (r & Hr & Hs & _).
  exists r. split; [exact Hr|exact Hs].
Defined.

(** On [fs3] a fresh verifier returns three outcomes and keeps two. *)
Lemma batch_appends_only_verified_witness :
  reachable (init ".") /\
  fst (batch_verify_manifests Demo.fs3 (init ".") None)
  <> verification_results (snd (batch_verify_manifests Demo.fs3 (init ".") None)).
Proof.
  split; [constructor|].
  apply (batch_appends_only_verified Demo.fs3 (init ".") None (reach_init ".")).
  right. exists "data/cve/c.json", (JSONDecodeError "Expecting value" 1 1 0).
  split; [simpl; auto|reflexivity].
Defined.


(** An outcome whose [cve_id] is a lone surrogate: the three documents are
    built, and none is written. *)
Example reports_of_lone_surrogate_are_not_written :
  Forall is_outcome Demo2.surrogate_results /\
  (exists doc, generate_html_report Demo2.surrogate_results = inr doc) /\
  html_report_file Demo2.surrogate_results = inl surrogates_not_allowed /\
  markdown_report_file Demo2.surrogate_results = inl surrogates_not_allowed /\
  csv_report_file Demo2.surrogate_results = inl surrogates_not_allowed.
Proof.
  split; [repeat constructor|].
  split; [eexists; vm_compute; reflexivity|].
  split; [|split]; vm_compute; reflexivity.
Qed.

(** Fifty-one outcomes: fifty-one rows in the HTML report, fifty in the
    dashboard. *)
Lemma only_dashboard_caps_rows_witness :
  Forall is_outcome Demo.results51 /\
  Forall displayable [Demo.full] /\
  (exists doc,
      generate_html_report Demo.results51 = inr doc /\
      List.length (html_rows doc) = 51) /\
  (exists doc,
      Html.generate_dashboard_html [Demo.full] Demo.results51 = inr doc /\
      List.length (Html.db_verification_rows doc) = 50 /\
      Html.db_total_verifications doc = 51%Z).
Proof.
  assert (H : Forall is_outcome Demo.results51).
  { apply Forall_forall. intros r Hin. apply repeat_spec in Hin. subst r.
    constructor. }
  assert (Hc : Forall displayable [Demo.full]).
  { constructor; [|constructor]. eexists. vm_compute. reflexivity. }
  split; [exact H|]. split; [exact Hc|].
  destruct (only_dashboard_caps_rows [Demo.full] Demo.results51 H Hc)
    as ((doc & Hdoc & Hlen & _) & _ & (db & Hdb & _ & Hrows & _ & Ht & _)).
  split.
  - exists doc. split; [exact Hdoc|exact Hlen].
  - exists db. split; [exact Hdb|]. split; [exact Hrows|exact Ht].
Defined.


(** * Further properties of the code *)

(** ** Checksum service *)

Section ChecksumService.

Context {R : Runtime}.

Lemma supported_in_hashlib algorithm :
  In algorithm SUPPORTED_HASH_ALGORITHMS ->
  exists a, assoc algorithm hashlib_algorithms = Some a.
Proof.
  simpl. intros [<-|[<-|[<-|[]]]]; eexists; reflexivity.
Qed.


Lemma substring_length_le n s : String.length (substring 0 n s) <= n.
Proof.
  revert n; induction s as [|c s IH]; intros [|n]; simpl; try lia.
  specialize (IH n). lia.
Qed.

Lemma read_chunks_sizes fuel n s :
  Forall (fun chunk => 0 < String.length chunk <= n) (read_chunks fuel n s).
Proof.
  revert s; induction fuel as [|fuel IH]; intros s; cbn [read_chunks].
  - constructor.
  - destruct (String.eqb_spec (substring 0 n s) "") as [E|E]; constructor.
    + split; [|apply substring_length_le].
      destruct (substring 0 n s); [congruence|simpl; lia].
    + apply IH.
Qed.

(** X2: the reading loop of [generate_file_checksum] feeds the hash every byte
    of the file, in order, in pieces that are never empty and never longer
    than 4096 bytes. *)
Theorem file_is_read_in_bounded_chunks content :
  let chunks := read_chunks (String.length content) 4096 content in
  String.concat "" chunks = content /\
  Forall (fun chunk => 0 < String.length chunk <= 4096) chunks /\
  fed (fold_left update chunks {| algo := SHA256; fed := "" |}) = content.
Proof.
  intros chunks. subst chunks. split; [apply read_chunks_concat; lia|].
  split; [apply read_chunks_sizes|].
  destruct (fold_update_fed (read_chunks (String.length content) 4096 content)
              {| algo := SHA256; fed := "" |}) as [-> _].
  simpl. apply read_chunks_concat; lia.
Qed.

(** X3: on a text that UTF-8 can encode (no lone surrogate), the only exception
    [generate_checksum] raises is the [ValueError] for an algorithm outside
    [SUPPORTED_HASH_ALGORITHMS]: every supported name is a constructor of
    [hashlib]. *)
Theorem generate_checksum_only_raises_unsupported data algorithm e :
  has_surrogate data = false ->
  generate_checksum data algorithm = inl e ->
  e = ValueError ("Unsupported hash algorithm: " ++ algorithm) /\
  ~ In algorithm SUPPORTED_HASH_ALGORITHMS.
Proof.
  intros _ H.
  destruct (in_dec string_dec algorithm SUPPORTED_HASH_ALGORITHMS) as [Hin|Hnot].
  - destruct (supported_in_hashlib algorithm Hin) as (a & Ha).
    rewrite (generate_checksum_supported data algorithm a Hin Ha) in H. discriminate.
  - rewrite (generate_checksum_unsupported data algorithm Hnot) in H.
    split; [congruence|exact Hnot].
Qed.

(** X4: [generate_file_checksum] returns a digest exactly when the path names a
    readable file and the algorithm is a constructor of [hashlib] whose
    [hexdigest] takes no length. A missing file is reported first, whatever
    the algorithm. *)
Theorem generate_file_checksum_outcomes fs file_path algorithm :
  ((exists digest, generate_file_checksum fs file_path algorithm = inr digest) <->
   (exists content, files fs file_path = Regular content) /\
   (exists a, assoc algorithm hashlib_algorithms = Some a)) /\
  (files fs file_path = Absent ->
   generate_file_checksum fs file_path algorithm
   = inl (FileNotFoundError ("File not found: " ++ file_path))).
Proof.
  split.
  - split.
    + intros (digest & H). unfold generate_file_checksum, path_exists, open_file in H.
      destruct (files fs file_path) as [|n msg|content]; try discriminate.
      * cbn [negb] in H. apply bind_inr in H as (h & _ & H). discriminate.
      * split; [eauto|]. cbn [negb] in H. apply bind_inr in H as (h & Hh & H).
        unfold hashlib_new in Hh.
        destruct (assoc algorithm hashlib_algorithms); [eauto|]. exfalso.
        destruct (assoc algorithm hashlib_xof) as [a|] eqn:Hx; [|discriminate].
        unfold ret in Hh, H. injection Hh as <-. cbn [bind] in H.
        unfold hash_hexdigest in H.
        destruct (fold_update_fed (read_chunks (String.length content) 4096 content)
                    {| algo := a; fed := "" |}) as [_ Halgo].
        rewrite Halgo in H. cbn [algo] in H.
        rewrite (hashlib_xof_needs_length algorithm a Hx) in H. discriminate.
    + intros [(content & Hf) (a & Ha)]. eexists.
      apply generate_file_checksum_regular; eassumption.
  - apply generate_file_checksum_missing.
Qed.

End ChecksumService.

(** ** Outcomes and the verifier's state *)

Section Outcomes.

Context {R : Runtime}.

Lemma has_key_lookup k (d : dict) default :
  has_key k d = true -> lookup k d = Some (dict_get d k default).
Proof.
  unfold has_key, dict_get, keys.
  induction d as [|[k' v] d IH]; simpl; [discriminate|].
  rewrite (String.eqb_sym k k'). destruct (k' =? k); [reflexivity|]. exact IH.
Qed.

Lemma missing_of_nil record :
  Nat.eqb (List.length (missing_of record)) 0
  = forallb (fun field => has_key field record) required_fields.
Proof.
  unfold missing_of, required_fields. cbn [filter forallb].
  destruct (has_key "cve_id" record), (has_key "description" record),
    (has_key "severity" record), (has_key "published_date" record); reflexivity.
Qed.

Lemma valid_flag_outcome_of fs path :
  valid_flag (outcome_of fs path) = Some (complete fs path).
Proof.
  unfold outcome_of, complete.
  destruct (files fs path) as [|n msg|content] eqn:Hf.
  - unfold check_manifest, path_exists. rewrite Hf. reflexivity.
  - unfold check_manifest, path_exists, json_load, open_file. rewrite Hf. reflexivity.
  - destruct (json_loads content) as [err|v] eqn:Hj.
    + rewrite (check_manifest_malformed fs path content err Hf Hj). reflexivity.
    + destruct v as [| | | | | |record];
        try (destruct (check_manifest_not_record fs path content _ Hf Hj) as (e & ->);
             [discriminate|reflexivity]).
      rewrite (check_manifest_record fs path content record Hf Hj).
      unfold valid_flag.
      cbn [lookup verification_result String.eqb Ascii.eqb Bool.eqb].
      rewrite missing_of_nil. reflexivity.
Qed.

(** X5: the outcome of a manifest that parses to a record is valid exactly when
    the record has all four required keys; a valid outcome lists no missing
    field and carries the record's own [cve_id] and [severity], never the
    ["UNKNOWN"] default. *)
Theorem valid_outcome_carries_record_fields fs self path content record :
  files fs path = Regular content ->
  json_loads content = inr (JDict record) ->
  exists r,
    fst (verify_cve_manifest fs self path) = inr r /\
    (lookup "valid" r = Some (JBool true) <->
     forall field, In field required_fields -> In field (keys record)) /\
    (lookup "valid" r = Some (JBool true) ->
     lookup "missing_fields" r = Some (JList []) /\
     lookup "cve_id" r = lookup "cve_id" record /\
     lookup "severity" r = lookup "severity" record).
Proof.
  intros Hf Hj.
  pose proof (check_manifest_record fs path content record Hf Hj) as Hc.
  eexists. split; [unfold verify_cve_manifest; rewrite Hc; reflexivity|].
  cbn [lookup verification_result String.eqb Ascii.eqb Bool.eqb].
  rewrite missing_of_nil.
  assert (Hall : forallb (fun field => has_key field record) required_fields = true
                 <-> forall field, In field required_fields -> In field (keys record)).
  { rewrite forallb_forall. split; intros H field Hin.
    - apply has_key_In. auto.
    - apply has_key_In. auto. }
  split.
  - rewrite <- Hall.
    destruct (forallb (fun field => has_key field record) required_fields);
      split; congruence.
  - intros [= Hv].
    change (forallb (fun field => has_key field record) required_fields = true) in Hv.
    assert (Hm : missing_of record = []).
    { rewrite <- missing_of_nil in Hv. destruct (missing_of record); [reflexivity|discriminate]. }
    rewrite Hm. split; [reflexivity|].
    rewrite forallb_forall in Hv.
    split; symmetry; apply has_key_lookup; apply Hv; simpl; auto.
Qed.

(** X6: whatever calls were made on a verifier, every entry of
    [verification_results] is the dictionary [verify_cve_manifest] built for
    some file on some file system: it has the nine keys of a verified outcome,
    in order, and never the ["error"] key. *)
Theorem stored_results_come_from_verification self :
  reachable self ->
  Forall (fun r => (exists fs path, check_manifest fs path = inr r) /\
                   keys r = verified_keys /\
                   lookup "lineage_id" r = Some (JStr LINEAGE_ID))
         (verification_results self).
Proof.
  assert (Hshape : forall fs path r,
             check_manifest fs path = inr r ->
             (exists fs path, check_manifest fs path = inr r) /\
             keys r = verified_keys /\
             lookup "lineage_id" r = Some (JStr LINEAGE_ID)).
  { intros fs path r E. split; [eauto|].
    apply check_manifest_shape in E as (c & sv & fc & cc & m & ->).
    split; reflexivity. }
  induction 1 as [base|fs self path _ IH|fs self dir _ IH].
  - constructor.
  - unfold verify_cve_manifest.
    destruct (check_manifest fs path) as [e|r] eqn:E; cbn [snd]; [exact IH|].
    cbn [append verification_results]. apply Forall_app; split; [exact IH|].
    constructor; [|constructor]. eapply Hshape; eauto.
  - rewrite batch_verify_manifests_spec. cbn [snd verification_results].
    apply Forall_app; split; [exact IH|].
    apply Forall_forall. intros r Hin. unfold verified in Hin.
    apply in_flat_map in Hin as (f & _ & Hin).
    destruct (check_manifest fs f) as [e|r'] eqn:E; [contradiction|].
    destruct Hin as [<-|[]]. eapply Hshape; eauto.
Qed.

(** X7: a second [batch_verify_manifests] on an unchanged directory returns,
    the times of the outcomes apart, the same list again, and the verifier's
    own list then holds every verified outcome twice: nothing is reset or
    deduplicated between calls. *)
Theorem batch_twice_accumulates fs self manifest_directory :
  let first := batch_verify_manifests fs self manifest_directory in
  let second := batch_verify_manifests fs (snd first) manifest_directory in
  let kept := verified fs (discovered fs self manifest_directory) in
  map without_timestamp (fst second) = map without_timestamp (fst first) /\
  List.length (verification_results (snd second))
  = (List.length (verification_results self) + 2 * List.length kept)%nat /\
  map without_timestamp (verification_results (snd second))
  = map without_timestamp (verification_results self ++ kept ++ kept)%list.
Proof.
  intros first second kept. subst first second kept.
  rewrite (batch_verify_manifests_spec fs self). cbn [fst snd].
  rewrite batch_verify_manifests_spec. cbn [fst snd verification_results].
  assert (E : forall s' : EchoForgeVerifier, base_path s' = base_path self ->
              discovered fs s' manifest_directory = discovered fs self manifest_directory).
  { intros s' Hb. unfold discovered, data_path. rewrite Hb. reflexivity. }
  rewrite E by reflexivity. split; [reflexivity|].
  split; [rewrite !length_app; lia|].
  f_equal. symmetry. apply app_assoc.
Qed.

Lemma flagged_valid_outcomes fs manifest_files :
  flagged_valid (map (outcome_of fs) manifest_files)
  = Z.of_nat (List.length (filter (complete fs) manifest_files)).
Proof.
  unfold flagged_valid. do 2 f_equal.
  induction manifest_files as [|f rest IH]; [reflexivity|].
  cbn [map filter]. rewrite valid_flag_outcome_of.
  destruct (complete fs f); simpl; rewrite IH; reflexivity.
Qed.

(** X8: from the directory to the report: the HTML report of a batch counts as
    total the files the directory enumeration gave, and as valid exactly those
    holding a record with all four required keys; every other file, parseable
    or not, is counted invalid. *)
Theorem report_counts_complete_manifests fs self manifest_directory :
  let manifest_files := discovered fs self manifest_directory in
  let results := fst (batch_verify_manifests fs self manifest_directory) in
  exists doc,
    generate_html_report results = inr doc /\
    html_total doc = len manifest_files /\
    html_valid doc = len (filter (complete fs) manifest_files) /\
    html_invalid doc
    = len (filter (fun f => negb (complete fs f)) manifest_files).
Proof.
  intros manifest_files results.
  destruct (generate_html_report_outcomes results
              (batch_results_are_outcomes fs self manifest_directory))
    as (doc & Hdoc & Ht & Hv & Hi & _).
  exists doc. split; [exact Hdoc|].
  subst results. rewrite batch_verify_manifests_spec in *. cbn [fst] in *.
  fold manifest_files in Ht, Hv, Hi.
  rewrite flagged_valid_outcomes in Hv, Hi.
  assert (Hlen : len (map (outcome_of fs) manifest_files) = len manifest_files)
    by (unfold len; rewrite length_map; reflexivity).
  rewrite Hlen in Ht, Hi.
  split; [exact Ht|]. split; [exact Hv|].
  rewrite Hi. unfold len.
  pose proof (filter_length (complete fs) manifest_files) as Hf. lia.
Qed.

End Outcomes.

(** ** The CSV report on any list of dictionaries *)

Lemma mapM_raises {A B} (f : A -> result B) l :
  Exists (fun a => exists e, f a = inl e) l ->
  exists a e, In a l /\ f a = inl e /\ mapM f l = inl e.
Proof.
  induction l as [|a l IH]; intros H; [inversion H|].
  cbn [mapM]. destruct (f a) as [e|b] eqn:E.
  - exists a, e. split; [left; reflexivity|]. split; [exact E|reflexivity].
  - cbn [bind]. inversion H as [? ? (e & He)|? ? Hl]; subst; [congruence|].
    destruct (IH Hl) as (a' & e & Hin & Ha' & Hm).
    exists a', e. split; [right; exact Hin|]. split; [exact Ha'|].
    rewrite Hm. reflexivity.
Qed.


Section CsvReport.

Context {R : Runtime}.






End CsvReport.

(** ** The shortened checksum of the reports *)

Lemma string_length_append (s t : string) :
  String.length (s ++ t) = String.length s + String.length t.
Proof. induction s; simpl; congruence. Qed.

Lemma substring_length_min n s :
  String.length (substring 0 n s) = Nat.min n (String.length s).
Proof.
  revert n; induction s as [|c s IH]; intros [|n]; simpl; try reflexivity.
  rewrite IH. reflexivity.
Qed.

(** X10: the checksum cell of the Markdown, HTML and dashboard rows: for a
    dictionary whose [file_checksum] is a string, the cell is ["N/A"] when the
    string is empty, and otherwise its first sixteen characters followed by
    ["..."], so at most nineteen characters, and exactly nineteen for a digest
    of sixteen characters or more; without the key the cell is ["N/A"]. *)
Theorem checksum_cell_is_bounded (r : dict) :
  match lookup "file_checksum" r with
  | Some (JStr s) =>
      exists cell,
        checksum_short_of r = inr cell /\
        cell = (if s =? "" then "N/A" else take 16 s ++ "...") /\
        String.length cell <= 19 /\
        (16 <= String.length s -> String.length cell = 19)
  | None => checksum_short_of r = inr "N/A"
  | _ => True
  end.
Proof.
  unfold checksum_short_of, dict_get.
  destruct (lookup "file_checksum" r) as [[| | | |s| |]|]; try exact I; [|reflexivity].
  cbn [truthy]. destruct (String.eqb_spec s "") as [->|Hs]; cbn [negb].
  - eexists. split; [reflexivity|]. split; [reflexivity|]. simpl. split; lia.
  - eexists. split; [reflexivity|]. split; [reflexivity|].
    unfold take. rewrite string_length_append, substring_length_min.
    change (String.length "...") with 3. split; lia.
Qed.

(** ** The full run *)

Section FullRunProperties.

Context {R : Runtime}.












End FullRunProperties.

(** ** The dashboard: severity counts, rows and loading *)

Section DashboardMore.

Context {R : Runtime}.

Lemma count_get_set_item k n counts k' :
  Html.count_get (Html.set_item k n counts) k'
  = if k =? k' then n else Html.count_get counts k'.
Proof.
  unfold Html.count_get.
  induction counts as [|[k0 n0] counts IH]; cbn [Html.set_item assoc].
  - destruct (k =? k'); reflexivity.
  - destruct (String.eqb_spec k0 k) as [->|Hk0]; cbn [assoc].
    + destruct (k =? k'); reflexivity.
    + destruct (String.eqb_spec k0 k') as [->|Hk0'].
      * destruct (String.eqb_spec k k'); [congruence|reflexivity].
      * exact IH.
Qed.

Lemma count_severities_counts cve_data : forall counts counts' k,
  Html.count_severities cve_data counts = inr counts' ->
  Html.count_get counts' k
  = (Html.count_get counts k + len (with_severity k cve_data))%Z.
Proof.
  induction cve_data as [|cve rest IH]; intros counts counts' k H.
  - inversion H; subst. unfold len; simpl. lia.
  - cbn [Html.count_severities] in H.
    apply bind_inr in H as (s & Hs & H).
    rewrite (IH _ _ k H), count_get_set_item.
    unfold with_severity, len. cbn [filter]. rewrite Hs.
    destruct (String.eqb_spec s k) as [->|Hne]; cbn [List.length]; lia.
Qed.

Lemma with_severity_disjoint cve_data :
  (len (with_severity "CRITICAL" cve_data) + len (with_severity "HIGH" cve_data)
   + len (with_severity "MEDIUM" cve_data) + len (with_severity "LOW" cve_data)
   <= len cve_data)%Z.
Proof.
  unfold len, with_severity.
  induction cve_data as [|cve rest IH]; cbn [filter List.length]; [lia|].
  destruct (Html.severity_upper cve) as [e|s]; [lia|].
  destruct (s =? "CRITICAL") eqn:E1, (s =? "HIGH") eqn:E2,
    (s =? "MEDIUM") eqn:E3, (s =? "LOW") eqn:E4;
    cbn [List.length]; try lia; exfalso;
    repeat match goal with
           | H : (_ =? _) = true |- _ => apply String.eqb_eq in H
           end; congruence.
Qed.

(** X13: the four severity counts of the dashboard are taken over every
    record given (not only the fifty that get a row), each is the number of
    records whose severity in upper case is that name, and together they never
    exceed the total shown beside them. *)
Theorem dashboard_severity_counts cve_data results :
  Forall displayable cve_data ->
  Forall is_outcome results ->
  exists doc,
    Html.generate_dashboard_html cve_data results = inr doc /\
    Html.db_total_cves doc = len cve_data /\
    Html.db_critical doc = len (with_severity "CRITICAL" cve_data) /\
    Html.db_high doc = len (with_severity "HIGH" cve_data) /\
    Html.db_medium doc = len (with_severity "MEDIUM" cve_data) /\
    Html.db_low doc = len (with_severity "LOW" cve_data) /\
    (Html.db_critical doc + Html.db_high doc + Html.db_medium doc + Html.db_low doc
     <= Html.db_total_cves doc)%Z.
Proof.
  intros Hc Hr. unfold Html.generate_dashboard_html.
  destruct (count_severities_defined cve_data [] Hc) as (counts & Hcounts).
  rewrite Hcounts; cbn [bind].
  destruct (dashboard_success_rate_defined (count_valid results) (len results))
    as (s & ->); cbn [bind].
  destruct (mapM_Forall2 Html.cve_row_of (fun _ _ => True) (firstn 50 cve_data))
    as (cve_rows & -> & _).
  { apply Forall_firstn. eapply Forall_impl; [|exact Hc].
    intros cve (row & Hrow). eauto. }
  cbn [bind].
  destruct (mapM_Forall2 Html.verification_row_of (fun _ _ => True) (firstn 50 results))
    as (rows & -> & _).
  { apply Forall_firstn. eapply Forall_impl; [|exact Hr]. intros r Ho.
    destruct (verification_row_of_outcome r Ho) as (row & Hrow & _). eauto. }
  cbn [bind]. eexists. split; [reflexivity|].
  cbn [Html.db_total_cves Html.db_critical Html.db_high Html.db_medium Html.db_low].
  rewrite !(count_severities_counts cve_data [] counts _ Hcounts).
  change (Html.count_get [] _) with 0%Z.
  pose proof (with_severity_disjoint cve_data).
  repeat split; lia.
Qed.

(** X14: a record whose [severity], [published_date] and [description] are
    strings, where present, the last two in ASCII, always gets a dashboard
    row. Its date cell is the first ten characters of the date, or
    ["Unknown"] when the date is absent or empty; its description cell is the
    description itself up to a hundred characters and is cut to a hundred
    characters followed by ["..."] beyond, so it never exceeds 103
    characters. *)
Theorem plain_record_row d :
  plain_record d = true ->
  ascii_record d = true ->
  exists row,
    Html.cve_row_of (JDict d) = inr row /\
    Html.cr_pub_date row
    = JStr (match lookup "published_date" d with
            | Some (JStr s) => if s =? "" then "Unknown" else take 10 s
            | _ => "Unknown"
            end) /\
    exists text,
      Html.cr_description row = JStr text /\
      text = match lookup "description" d with
             | Some (JStr s) =>
                 if (100 <? String.length s)%nat then take 100 s ++ "..." else s
             | _ => "No description available"
             end /\
      String.length text <= 103.
Proof.
  unfold plain_record, str_or_absent. intros H _.
  apply andb_true_iff in H as [H Hdesc]. apply andb_true_iff in H as [Hsev Hdate].
  unfold Html.cve_row_of, Html.severity_upper. cbn [py_get bind ret].
  unfold dict_get.
  assert (Esev : exists s, match lookup "severity" d with
                           | Some v => v
                           | None => JStr "UNKNOWN"
                           end = JStr s).
  { destruct (lookup "severity" d) as [[]|]; try discriminate; eauto. }
  destruct Esev as (sev & ->). cbn [bind ret].
  assert (Edate : exists date,
             (if truthy match lookup "published_date" d with
                        | Some v => v
                        | None => JNull
                        end
              then Html.py_slice_to 10 match lookup "published_date" d with
                                       | Some v => v
                                       | None => JStr "Unknown"
                                       end
              else ret (JStr "Unknown")) = inr (JStr date) /\
             date = match lookup "published_date" d with
                    | Some (JStr s) => if s =? "" then "Unknown" else take 10 s
                    | _ => "Unknown"
                    end).
  { destruct (lookup "published_date" d) as [[| | | |s| |]|]; try discriminate.
    - cbn [truthy]. destruct (s =? ""); cbn [negb Html.py_slice_to ret]; eauto.
    - cbn [truthy]. eauto. }
  destruct Edate as (date & -> & Hd). cbn [bind].
  assert (Edesc : exists s, match lookup "description" d with
                            | Some v => v
                            | None => JStr "No description available"
                            end = JStr s /\
                            (if (100 <? String.length s)%nat then take 100 s ++ "..." else s)
                            = match lookup "description" d with
                              | Some (JStr s) =>
                                  if (100 <? String.length s)%nat
                                  then take 100 s ++ "..." else s
                              | _ => "No description available"
                              end).
  { destruct (lookup "description" d) as [[| | | |s| |]|]; try discriminate; eauto. }
  destruct Edesc as (desc & -> & Ht). cbn [Html.py_len bind ret].
  assert (Eltb : (100 <? Z.of_nat (String.length desc))%Z
                 = (100 <? String.length desc)%nat).
  { destruct (Nat.ltb_spec 100 (String.length desc));
      destruct (Z.ltb_spec 100 (Z.of_nat (String.length desc))); try reflexivity; lia. }
  rewrite Eltb.
  destruct (Nat.ltb_spec 100 (String.length desc)) as [Hlong|Hshort];
    cbn [Html.py_slice_to Html.py_add_str bind ret];
    (eexists; split; [reflexivity|]; cbn [Html.cr_pub_date Html.cr_description];
     split; [congruence|]; eexists; split; [reflexivity|]; split; [exact Ht|]).
  - unfold take. rewrite string_length_append, substring_length_min.
    change (String.length "...") with 3. lia.
  - lia.
Qed.

Lemma check_manifest_loads fs path r :
  check_manifest fs path = inr r -> exists v, json_load fs path = inr v.
Proof.
  unfold check_manifest. destruct (negb _); [discriminate|]. intros H.
  apply bind_inr in H as (v & Hv & _). eauto.
Qed.

(** X15: the dashboard loads exactly the manifest files [json.load] accepts
    and silently leaves out the others: it never holds more records than the
    directory has files, nor fewer than the verifier verifies there. *)
Theorem dashboard_loads_what_parses fs base :
  let manifest_files := discovered fs (init base) None in
  List.length (Html.load_cve_data fs base)
  = List.length (filter (loads_as_json fs) manifest_files) /\
  List.length (verified fs manifest_files)
  <= List.length (Html.load_cve_data fs base) /\
  List.length (Html.load_cve_data fs base) <= List.length manifest_files.
Proof.
  intros manifest_files. subst manifest_files.
  unfold Html.load_cve_data, discovered, data_path, init. cbn [base_path].
  destruct (glob_json fs _) as [manifest_files|]; [|simpl; lia].
  unfold verified, loads_as_json.
  induction manifest_files as [|f rest (IH1 & IH2 & IH3)]; [simpl; lia|].
  cbn [flat_map filter]. rewrite !length_app.
  destruct (check_manifest fs f) as [e|r] eqn:Ec.
  - destruct (json_load fs f); cbn [List.length] in *; lia.
  - destruct (check_manifest_loads fs f r Ec) as (v & ->). cbn [List.length] in *. lia.
Qed.

Lemma simulated_result_raises cve e :
  Html.simulated_result cve = inl e -> exists msg, e = AttributeError msg.
Proof.
  destruct cve; cbn; intros H; inversion H; eauto.
Qed.

(** X16: one manifest that is JSON but not a record (a list, a number, a
    string) makes [process_and_generate_dashboard] fail with [AttributeError]:
    it is loaded like any other and then asked for [.get]. *)
Theorem dashboard_fails_on_non_record fs base v :
  In v (Html.load_cve_data fs base) ->
  (forall d, v <> JDict d) ->
  exists msg, Html.process_and_generate_dashboard fs base = inl (AttributeError msg).
Proof.
  intros Hin Hv. unfold Html.process_and_generate_dashboard.
  destruct (mapM_raises Html.simulated_result (Html.load_cve_data fs base))
    as (a & e & _ & Ha & ->).
  - apply Exists_exists. exists v. split; [exact Hin|].
    destruct v; try (eexists; reflexivity). exfalso. eapply Hv. reflexivity.
  - destruct (simulated_result_raises a e Ha) as (msg & ->). cbn [bind]. eauto.
Qed.

End DashboardMore.

(** ** The analyses of the Python dialect *)

Section PythonAnalyses.

Context {R : Runtime}.

Variable round2 : float -> float.

Lemma mapping_value s :
  In (match assoc s PythonDialect.severity_mapping with
      | Some n => n
      | None => 0%Z
      end) [0; 1; 2; 3; 4]%Z.
Proof.
  unfold PythonDialect.severity_mapping. cbn [assoc].
  repeat match goal with
         | |- context [if ?b then _ else _] => destruct b
         end; simpl; auto 6.
Qed.

Lemma risk_score_of_cases r :
  if hashable (severity_of r)
  then exists x, PythonDialect.risk_score_of r = inr x /\ In x risk_levels
  else exists msg, PythonDialect.risk_score_of r = inl (TypeError msg).
Proof.
  unfold PythonDialect.risk_score_of, severity_of.
  destruct (dict_get r "severity" (JStr "UNKNOWN")) as [| | | |s| |];
    cbn [hashable PythonDialect.mapping_get bind ret raise];
    try solve [destruct (is_valid r); eexists; (split; [reflexivity|]);
               vm_compute; auto 8];
    try solve [eexists; reflexivity].
  pose proof (mapping_value s) as Hn.
  destruct (match assoc s PythonDialect.severity_mapping with
            | Some n => n
            | None => 0%Z
            end) as [|p|p]; cbn [In] in Hn.
  - destruct (is_valid r); eexists; (split; [reflexivity|]); vm_compute; auto 8.
  - destruct Hn as [Hn|[Hn|[Hn|[Hn|[Hn|[]]]]]]; inversion Hn; subst;
      destruct (is_valid r); eexists; (split; [reflexivity|]); vm_compute; auto 8.
  - exfalso. destruct Hn as [Hn|[Hn|[Hn|[Hn|[Hn|[]]]]]]; discriminate.
Qed.

Lemma risk_score_of_error path e :
  PythonDialect.risk_score_of (error_result path e) = inr 0%float.
Proof.
  unfold PythonDialect.risk_score_of.
  change (dict_get (error_result path e) "severity" (JStr "UNKNOWN")) with (JStr "ERROR").
  change (is_valid (error_result path e)) with false.
  vm_compute. reflexivity.
Qed.

(** X17: [generate_risk_matrix] gives one score per outcome, each one of 0,
    0.5, 1, 1.5, 2, 3 and 4 (the severity's weight, halved for an invalid
    outcome), in an array of shape [(n, 1)], or of shape [(0,)] for no outcome;
    a synthesized error outcome scores 0. It raises [TypeError] exactly when
    some outcome's severity is a list or a dictionary, which cannot be looked
    up in the weight table. *)
Theorem risk_matrix_scores results :
  if forallb (fun r => hashable (severity_of r)) results
  then exists m,
         PythonDialect.generate_risk_matrix results = inr m /\
         PythonDialect.shape m = match results with
                                 | [] => [0%Z]
                                 | _ :: _ => [len results; 1%Z]
                                 end /\
         List.length (PythonDialect.data m) = List.length results /\
         Forall (fun x => In x risk_levels) (PythonDialect.data m) /\
         Forall2 (fun r x => forall path e, r = error_result path e -> x = 0%float)
                 results (PythonDialect.data m)
  else exists msg, PythonDialect.generate_risk_matrix results = inl (TypeError msg).
Proof.
  destruct (forallb _ results) eqn:E.
  - destruct (mapM_Forall2 PythonDialect.risk_score_of
                (fun r x => In x risk_levels /\
                            forall path e, r = error_result path e -> x = 0%float)
                results) as (scores & Hm & HF).
    { rewrite forallb_forall in E. apply Forall_forall. intros r Hin.
      pose proof (risk_score_of_cases r) as Hc. rewrite (E r Hin) in Hc.
      destruct Hc as (x & Hx & Hlevel). exists x. split; [exact Hx|].
      split; [exact Hlevel|]. intros path e ->.
      rewrite risk_score_of_error in Hx. congruence. }
    pose proof (Forall2_length HF) as Hlen.
    unfold PythonDialect.generate_risk_matrix.
    destruct results as [|r rest].
    + eexists. split; [reflexivity|]. repeat split; constructor.
    + rewrite Hm. cbn [bind]. eexists. split; [reflexivity|].
      cbn [PythonDialect.shape PythonDialect.data].
      split; [unfold len; rewrite <- Hlen; reflexivity|].
      split; [symmetry; exact Hlen|]. split.
      * clear -HF. induction HF as [|? ? ? ? [H _] _ IH]; constructor; assumption.
      * eapply Forall2_impl; [|exact HF]. simpl. intros a b [_ H]. exact H.
  - assert (Hex : Exists (fun r => exists e, PythonDialect.risk_score_of r = inl e)
                         results).
    { clear -E. induction results as [|r rest IH]; [discriminate|].
      cbn [forallb] in E. pose proof (risk_score_of_cases r) as Hc.
      destruct (hashable (severity_of r)).
      - apply Exists_cons_tl. apply IH. exact E.
      - apply Exists_cons_hd. destruct Hc as (msg & ->). eauto. }
    destruct (mapM_raises _ _ Hex) as (r & e & _ & Hr & Hm).
    pose proof (risk_score_of_cases r) as Hc.
    destruct (hashable (severity_of r)).
    + destruct Hc as (x & Hx & _). congruence.
    + destruct Hc as (msg & Hmsg). exists msg.
      unfold PythonDialect.generate_risk_matrix.
      destruct results as [|r0 rest]; [inversion Hex|].
      rewrite Hm. cbn [bind]. congruence.
Qed.

Lemma set_add_spec x s :
  NoDup s ->
  NoDup (PythonDialect.set_add x s) /\
  forall y, In y (PythonDialect.set_add x s) <-> y = x \/ In y s.
Proof.
  intros Hs. unfold PythonDialect.set_add.
  destruct (existsb (String.eqb x) s) eqn:E.
  - split; [exact Hs|]. intros y. split; [auto|].
    intros [->|H]; [|exact H].
    apply existsb_exists in E as (z & Hz & Hxz).
    apply String.eqb_eq in Hxz. subst. exact Hz.
  - split.
    + apply NoDup_app; [exact Hs|repeat constructor; auto|].
      intros y Hy [Hxy|[]]. subst y.
      assert (Hc : existsb (String.eqb x) s = true)
        by (apply existsb_exists; exists x; split; [exact Hy|apply String.eqb_refl]).
      congruence.
    + intros y. rewrite in_app_iff. simpl. intuition.
Qed.

Lemma total_count_bump k d :
  total_count (PythonDialect.bump k d) = (total_count d + 1)%Z.
Proof.
  unfold total_count.
  induction d as [|[k' v] d IH]; cbn [PythonDialect.bump fold_right snd]; [lia|].
  destruct (k' =? k)%Z; cbn [fold_right snd]; lia.
Qed.

Lemma tally_all_spec results : forall t,
  Forall (fun r => exists s, dict_get r "file_checksum" (JStr "") = JStr s) results ->
  NoDup (PythonDialect.unique_checksums t) ->
  exists t',
    PythonDialect.tally_all t results = inr t' /\
    PythonDialect.seen t' = (PythonDialect.seen t + len (checksums results))%Z /\
    total_count (PythonDialect.lengths t')
    = (total_count (PythonDialect.lengths t) + len (checksums results))%Z /\
    NoDup (PythonDialect.unique_checksums t') /\
    forall y, In y (PythonDialect.unique_checksums t') <->
              In y (PythonDialect.unique_checksums t) \/ In y (checksums results).
Proof.
  induction results as [|r rest IH]; intros t H Hnd.
  - exists t. unfold len; simpl. repeat split; auto; try lia; tauto.
  - inversion H as [|? ? (s & Hs) Hrest]; subst.
    cbn [PythonDialect.tally_all]. unfold PythonDialect.tally_one.
    unfold checksums. cbn [flat_map]. fold (checksums rest). rewrite Hs.
    cbn [truthy]. destruct (String.eqb_spec s "") as [->|Hne]; cbn [negb bind ret].
    + destruct (IH t Hrest Hnd) as (t' & -> & H1 & H2 & H3 & H4).
      exists t'. cbn [app]. repeat split; auto; apply H4.
    + destruct (set_add_spec s (PythonDialect.unique_checksums t) Hnd) as [Hnd' Hin'].
      destruct (IH {| PythonDialect.seen := (PythonDialect.seen t + 1)%Z;
                      PythonDialect.unique_checksums :=
                        PythonDialect.set_add s (PythonDialect.unique_checksums t);
                      PythonDialect.lengths :=
                        PythonDialect.bump (Z.of_nat (String.length s))
                                           (PythonDialect.lengths t) |}
                   Hrest Hnd') as (t' & -> & H1 & H2 & H3 & H4).
      cbn [PythonDialect.seen PythonDialect.unique_checksums PythonDialect.lengths] in *.
      rewrite total_count_bump in H2.
      exists t'. split; [reflexivity|]. unfold len in *. cbn [app List.length].
      split; [lia|]. split; [lia|]. split; [exact H3|].
      intros y. rewrite H4, Hin'. simpl. intuition (subst; auto).
Qed.

Lemma outcome_checksum_is_string r :
  is_outcome r -> exists s, dict_get r "file_checksum" (JStr "") = JStr s.
Proof. intros []; eexists; reflexivity. Qed.

(** X18: on a non-empty list of outcomes [calculate_checksum_integrity] counts
    as [files_with_checksums] the outcomes with a non-empty checksum, as
    [unique_checksum_count] the number of distinct ones among them, and its
    length distribution adds up to [files_with_checksums]; so
    [unique <= with checksums <= total]. Its [potential_duplicates] list is
    always empty, also when checksums repeat. *)
Theorem checksum_integrity_counts results :
  Forall is_outcome results ->
  results <> [] ->
  exists a,
    PythonDialect.calculate_checksum_integrity round2 results = inr (Some a) /\
    PythonDialect.total_files a = len results /\
    PythonDialect.files_with_checksums a = len (checksums results) /\
    PythonDialect.unique_checksum_count a = len (nodup string_dec (checksums results)) /\
    total_count (PythonDialect.checksum_length_distribution a)
    = PythonDialect.files_with_checksums a /\
    (PythonDialect.unique_checksum_count a <= PythonDialect.files_with_checksums a
     <= PythonDialect.total_files a)%Z /\
    PythonDialect.potential_duplicates a = [] /\
    exists p, PythonDialect.integrity_percentage a = Some p.
Proof.
  intros H Hne.
  destruct (tally_all_spec results
              {| PythonDialect.seen := 0; PythonDialect.unique_checksums := [];
                 PythonDialect.lengths := [] |})
    as (t & Ht & Hseen & Htotal & Hnd & Hin).
  { eapply Forall_impl; [|exact H]. apply outcome_checksum_is_string. }
  { constructor. }
  cbn [PythonDialect.seen PythonDialect.unique_checksums PythonDialect.lengths] in *.
  change (total_count []) with 0%Z in Htotal.
  unfold PythonDialect.calculate_checksum_integrity.
  destruct results as [|r rest]; [congruence|].
  rewrite Ht. cbn [bind].
  assert (Hpos : (0 <? len (r :: rest))%Z = true)
    by (apply Z.ltb_lt; unfold len; simpl; lia).
  rewrite Hpos. unfold truediv.
  assert (Hz : (len (r :: rest) =? 0)%Z = false)
    by (apply Z.eqb_neq; unfold len; simpl; lia).
  rewrite Hz. cbn [bind ret].
  eexists. split; [reflexivity|].
  cbn [PythonDialect.total_files PythonDialect.files_with_checksums
       PythonDialect.unique_checksum_count PythonDialect.checksum_length_distribution
       PythonDialect.potential_duplicates PythonDialect.integrity_percentage].
  assert (Huniq : len (PythonDialect.unique_checksums t)
                  = len (nodup string_dec (checksums (r :: rest)))).
  { unfold len. f_equal. apply Permutation_length.
    apply NoDup_Permutation; [exact Hnd|apply NoDup_nodup|].
    intros y. rewrite Hin, nodup_In. simpl. tauto. }
  assert (Hle1 : (len (nodup string_dec (checksums (r :: rest)))
                  <= len (checksums (r :: rest)))%Z).
  { unfold len. pose proof (NoDup_incl_length (NoDup_nodup string_dec (checksums (r :: rest)))
                              (fun y Hy => proj1 (nodup_In string_dec _ y) Hy)). lia. }
  assert (Hle2 : (len (checksums (r :: rest)) <= len (r :: rest))%Z).
  { unfold len, checksums. apply inj_le.
    clear. generalize (r :: rest). intros l. induction l as [|a l IH]; [simpl; lia|].
    cbn [flat_map]. rewrite length_app.
    destruct (dict_get a "file_checksum" (JStr "")) as [| | | |s| |]; simpl; try lia.
    destruct (s =? ""); simpl; lia. }
  split; [reflexivity|]. split; [lia|]. split; [exact Huniq|].
  split; [lia|]. split; [lia|]. split; [reflexivity|]. eauto.
Qed.

End PythonAnalyses.

(** ** What [verify_cve_manifest] raises, and when it touches the state *)

Section VerifyErrors.

Context {R : Runtime}.

(** X19: [verify_cve_manifest] by the file it is given: a missing file raises
    [FileNotFoundError]; a file that cannot be opened, the [OSError] of
    [open]; content the parser refuses, the parser's own exception
    ([JSONDecodeError], or [UnicodeDecodeError], [ValueError] or
    [RecursionError]); JSON that is no record, [TypeError] (null, Boolean, number: at the [in] test) or
    [AttributeError] (string, list: at [.get]); a record is always verified.
    When it raises, the verifier is left as it was; when it returns, the
    returned dictionary is appended at the end of [verification_results]. *)
Theorem verify_cve_manifest_by_file fs self path :
  let run := verify_cve_manifest fs self path in
  match files fs path with
  | Absent =>
      fst run = inl (FileNotFoundError ("CVE manifest not found: " ++ path))
  | Unreadable errno strerror => fst run = inl (OSError errno strerror path)
  | Regular content =>
      match json_loads content with
      | inl err =>
          fst run = inl (json_error_exn err)
      | inr (JDict record) => exists r, fst run = inr r
      | inr (JStr _) | inr (JList _) => exists msg, fst run = inl (AttributeError msg)
      | inr _ => exists msg, fst run = inl (TypeError msg)
      end
  end /\
  match fst run with
  | inl _ => snd run = self
  | inr r =>
      verification_results (snd run) = (verification_results self ++ [r])%list /\
      base_path (snd run) = base_path self
  end.
Proof.
  intros run. subst run. unfold verify_cve_manifest. split.
  - destruct (files fs path) as [|n msg|content] eqn:Hf.
    + unfold check_manifest, path_exists. rewrite Hf. reflexivity.
    + unfold check_manifest, path_exists, json_load, open_file. rewrite Hf. reflexivity.
    + destruct (json_loads content) as [err|v] eqn:Hj.
      * rewrite (check_manifest_malformed fs path content err Hf Hj). reflexivity.
      * destruct v as [| | | |s|l|record];
          try (unfold check_manifest, path_exists, json_load, open_file;
               rewrite Hf; cbn [negb bind ret]; rewrite Hj; cbn [bind ret];
               cbn [filterM required_fields py_in bind raise];
               eexists; reflexivity).
        -- unfold check_manifest, path_exists, json_load, open_file.
           rewrite Hf. cbn [negb bind ret]. rewrite Hj. cbn [bind ret].
           destruct (filterM _ required_fields) as [e|m] eqn:Ef.
           { apply filterM_raises in Ef as (a & _ & Ha). discriminate. }
           cbn [bind].
           rewrite (generate_file_checksum_regular fs path content SHA256 "sha256")
             by auto.
           cbn [bind].
           rewrite (generate_checksum_supported _ "sha256" SHA256) by (simpl; auto).
           cbn [bind py_get raise fst]. eexists. reflexivity.
        -- unfold check_manifest, path_exists, json_load, open_file.
           rewrite Hf. cbn [negb bind ret]. rewrite Hj. cbn [bind ret].
           destruct (filterM _ required_fields) as [e|m] eqn:Ef.
           { apply filterM_raises in Ef as (a & _ & Ha). discriminate. }
           cbn [bind].
           rewrite (generate_file_checksum_regular fs path content SHA256 "sha256")
             by auto.
           cbn [bind].
           rewrite (generate_checksum_supported _ "sha256" SHA256) by (simpl; auto).
           cbn [bind py_get raise fst]. eexists. reflexivity.
        -- rewrite (check_manifest_record fs path content record Hf Hj).
           cbn [fst]. eauto.
  - destruct (check_manifest fs path); cbn [fst snd]; [reflexivity|].
    split; reflexivity.
Qed.

End VerifyErrors.

(** * The further properties on the concrete inputs *)


(** SHA-512 asked of [generate_checksum]. *)
Lemma generate_checksum_only_raises_unsupported_witness :
  has_surrogate "abc" = false /\
  generate_checksum "abc" "sha512"
  = inl (ValueError "Unsupported hash algorithm: sha512") /\
  ~ In "sha512" SUPPORTED_HASH_ALGORITHMS.
Proof.
  split; [reflexivity|]. split; [reflexivity|].
  apply (generate_checksum_only_raises_unsupported "abc" "sha512"
           (ValueError "Unsupported hash algorithm: sha512") eq_refl eq_refl).
Defined.

(** [a.json] of [fs3] has the four required keys. *)
Lemma valid_outcome_carries_record_fields_witness :
  files Demo.fs3 "data/cve/a.json" = Regular Demo.full_text /\
  json_loads Demo.full_text = inr Demo.full /\
  exists r,
    fst (verify_cve_manifest Demo.fs3 (init ".") "data/cve/a.json") = inr r /\
    lookup "valid" r = Some (JBool true) /\
    lookup "cve_id" r = Some (JStr "CVE-2024-0001").
Proof.
  assert (Hj : json_loads Demo.full_text = inr Demo.full) by reflexivity.
  split; [reflexivity|]. split; [exact Hj|].
  destruct (valid_outcome_carries_record_fields Demo.fs3 (init ".")
              "data/cve/a.json" Demo.full_text _ eq_refl Hj)
    as (r & Hr & Hiff & Hfields).
  assert (Hv : lookup "valid" r = Some (JBool true)).
  { apply Hiff. simpl. intuition (subst; simpl; auto). }
  exists r. split; [exact Hr|]. split; [exact Hv|].
  destruct (Hfields Hv) as (_ & Hc & _). rewrite Hc. reflexivity.
Defined.

(** The verifier after a batch on [fs3]. *)
Lemma stored_results_come_from_verification_witness :
  reachable (snd (batch_verify_manifests Demo.fs3 (init ".") None)) /\
  Forall (fun r => keys r = verified_keys)
         (verification_results (snd (batch_verify_manifests Demo.fs3 (init ".") None))).
Proof.
  assert (H : reachable (snd (batch_verify_manifests Demo.fs3 (init ".") None)))
    by (constructor; constructor).
  split; [exact H|].
  eapply Forall_impl; [|exact (stored_results_come_from_verification _ H)].
  simpl. intros r (_ & Hk & _). exact Hk.
Defined.

(** Two records, one [CRITICAL] and one [high], on the dashboard. *)
Lemma dashboard_severity_counts_witness :
  Forall displayable [Demo.full; JDict Demo2.long_record] /\
  Forall is_outcome Demo.results51 /\
  exists doc,
    Html.generate_dashboard_html [Demo.full; JDict Demo2.long_record] Demo.results51
    = inr doc /\
    Html.db_total_cves doc = 2%Z /\
    Html.db_critical doc = 1%Z /\
    Html.db_high doc = 1%Z.
Proof.
  assert (Hc : Forall displayable [Demo.full; JDict Demo2.long_record]).
  { constructor; [|constructor; [|constructor]]; eexists; vm_compute; reflexivity. }
  assert (H : Forall is_outcome Demo.results51).
  { apply Forall_forall. intros r Hin. apply repeat_spec in Hin. subst r.
    constructor. }
  split; [exact Hc|]. split; [exact H|].
  destruct (dashboard_severity_counts _ _ Hc H)
    as (doc & Hdoc & Ht & Hcr & Hh & _).
  exists doc. split; [exact Hdoc|]. split; [exact Ht|]. split; [exact Hcr|exact Hh].
Defined.

(** A record with a description of 120 characters. *)
Lemma plain_record_row_witness :
  plain_record Demo2.long_record = true /\
  ascii_record Demo2.long_record = true /\
  exists row,
    Html.cve_row_of (JDict Demo2.long_record) = inr row /\
    Html.cr_pub_date row = JStr "2024-02-01" /\
    exists text, Html.cr_description row = JStr text /\ String.length text <= 103.
Proof.
  split; [reflexivity|]. split; [reflexivity|].
  destruct (plain_record_row Demo2.long_record eq_refl eq_refl)
    as (row & Hrow & Hd & text & Ht & _ & Hlen).
  exists row. split; [exact Hrow|]. split; [exact Hd|].
  exists text. split; [exact Ht|exact Hlen].
Defined.

(** A directory whose only manifest is the JSON list [[]]. *)
Lemma dashboard_fails_on_non_record_witness :
  In (JList []) (Html.load_cve_data Demo2.fs_list ".") /\
  (forall d, JList [] <> JDict d) /\
  exists msg,
    Html.process_and_generate_dashboard Demo2.fs_list "." = inl (AttributeError msg).
Proof.
  assert (Hin : In (JList []) (Html.load_cve_data Demo2.fs_list "."))
    by (left; reflexivity).
  assert (Hv : forall d, JList [] <> JDict d) by discriminate.
  split; [exact Hin|]. split; [exact Hv|].
  exact (dashboard_fails_on_non_record Demo2.fs_list "." (JList []) Hin Hv).
Defined.

(** The three outcomes of [fs3]: two checksums, both distinct. *)
Lemma checksum_integrity_counts_witness :
  Forall is_outcome Demo.results3 /\
  Demo.results3 <> [] /\
  exists a,
    PythonDialect.calculate_checksum_integrity (fun x => x) Demo.results3
    = inr (Some a) /\
    PythonDialect.total_files a = 3%Z /\
    PythonDialect.files_with_checksums a = 2%Z /\
    PythonDialect.unique_checksum_count a = 2%Z.
Proof.
  assert (H : Forall is_outcome Demo.results3).
  { change Demo.results3 with
      [verification_result "data/cve/a.json" (JStr "CVE-2024-0001")
         (JStr "CRITICAL") (hexdigest SHA256 Demo.full_text)
         (hexdigest SHA256 (json_dumps true Demo.full)) [];
       verification_result "data/cve/b.json" (JStr "UNKNOWN") (JStr "banana")
         (hexdigest SHA256 Demo.banana_text)
         (hexdigest SHA256 (json_dumps true Demo.banana))
         ["cve_id"; "description"; "published_date"];
       error_result "data/cve/c.json" (JSONDecodeError "Expecting value" 1 1 0)].
    repeat constructor. }
  assert (Hne : Demo.results3 <> []) by discriminate.
  split; [exact H|]. split; [exact Hne|].
  destruct (checksum_integrity_counts (fun x => x) Demo.results3 H Hne)
    as (a & Ha & Ht & Hf & Hu & _).
  exists a. split; [exact Ha|]. split; [exact Ht|]. split; [exact Hf|exact Hu].
Defined.
